(** * Job application assistant: résumé parsing, cover-letter generation,
      application tracking and company research.

    A shallow embedding of the Python components under [src/components] and
    the properties of their specification that are settled against them.

    Texts.  A Python [str] is represented by a Rocq [string], that is by the
    sequence of the bytes of its UTF-8 encoding.  Prefix and substring tests
    commute with that encoding.  Lengths ([len]) and slices ([take]) count
    code points, as Python does: a code point is one byte that is not a
    continuation byte, followed by its continuation bytes.  Case mapping
    ([lower], [title]) and white space ([strip]) are those of the ASCII
    range, where all the literals of the source live, except the bullet
    character U+2022, which only occurs in prefix tests.  Where a result
    depends on how a line outside that range is lowered or stripped (the
    test for a section header of the résumé parser), the function is
    defined for any implementation of these operations.

    Effects.  Exceptions are values of a result type, with [try_except] for
    the handlers of the source; the generation capability, the readers of
    documents, the clock, the tracking table and the web are inputs of the
    functions that use them.  Printing to the console and sleeping are left
    out. *)

From Stdlib Require Import Ascii String NArith ZArith Bool List Lia.
From stdpp Require Import base option list gmap strings.

Local Open Scope string_scope.
Local Open Scope list_scope.

(* ===================================================================== *)
(** * Part I.  The model                                                  *)
(* ===================================================================== *)

(** ** Python string primitives *)

Module PyStr.

(** [str.isspace] on one character of the ASCII range: TAB, LF, VT, FF,
    CR, FS, GS, RS, US and SPACE.  The white space outside that range
    (U+0085, U+00A0, U+2000 and the like) is not recognised: [lstrip],
    [rstrip] and [strip] below are those of Python for a text whose white
    space is of the ASCII range. *)
Definition isspace (c : ascii) : bool :=
  let n := N_of_ascii c in
  ((9 <=? n) && (n <=? 13) || (28 <=? n) && (n <=? 32))%N.

Definition isupper (c : ascii) : bool :=
  let n := N_of_ascii c in ((65 <=? n) && (n <=? 90))%N.



Definition lower_char (c : ascii) : ascii :=
  if isupper c then ascii_of_N (N_of_ascii c + 32) else c.


(** [s.lower()], for a text whose cased characters are the letters of the
    ASCII range: those are lowered one by one, every other byte is kept. *)
Fixpoint lower (s : string) : string :=
  match s with
  | EmptyString => EmptyString
  | String c s' => String (lower_char c) (lower s')
  end.



(** [s.lstrip()] *)
Fixpoint lstrip (s : string) : string :=
  match s with
  | EmptyString => EmptyString
  | String c s' => if isspace c then lstrip s' else s
  end.

Definition is_empty (s : string) : bool :=
  match s with EmptyString => true | String _ _ => false end.

(** [s.rstrip()] *)
Fixpoint rstrip (s : string) : string :=
  match s with
  | EmptyString => EmptyString
  | String c s' =>
      let r := rstrip s' in
      if isspace c && is_empty r then EmptyString else String c r
  end.

(** [s.strip()] *)
Definition strip (s : string) : string := rstrip (lstrip s).

(** [s.startswith(p)] *)
Fixpoint startswith (s p : string) : bool :=
  match p with
  | EmptyString => true
  | String a p' =>
      match s with
      | EmptyString => false
      | String b s' => if Ascii.eqb a b then startswith s' p' else false
      end
  end.

(** [p in s] *)
Fixpoint contains (p s : string) : bool :=
  startswith s p ||
  match s with
  | EmptyString => false
  | String _ s' => contains p s'
  end.

(** [s.split(sep)] for a separator of one character; the result is never
    empty: [''.split(sep) == ['']]. *)
Fixpoint split_char (sep : ascii) (s : string) : list string :=
  match s with
  | EmptyString => [EmptyString]
  | String c s' =>
      if Ascii.eqb c sep then EmptyString :: split_char sep s'
      else match split_char sep s' with
           | h :: t => String c h :: t
           | [] => [String c EmptyString]
           end
  end.

(** The line feed, ['\n']. *)
Definition LF : ascii := ascii_of_nat 10.
Definition nl : string := String LF EmptyString.

(** [sep.join(l)] *)
Fixpoint join (sep : string) (l : list string) : string :=
  match l with
  | [] => EmptyString
  | [x] => x
  | x :: l' => x +:+ sep +:+ join sep l'
  end.

(** A continuation byte of UTF-8, [10xxxxxx]: every byte of the encoding
    of a code point but the first. *)
Definition continues_char (c : ascii) : bool :=
  let n := N_of_ascii c in ((128 <=? n) && (n <=? 191))%N.

(** [len(s)]: the number of code points of [s], that is of the bytes that
    start one. *)
Fixpoint len (s : string) : nat :=
  match s with
  | EmptyString => O
  | String c s' => if continues_char c then len s' else S (len s')
  end.

(** [s[:n]]: the first [n] code points of [s], each with its continuation
    bytes. *)
Fixpoint take (n : nat) (s : string) : string :=
  match s with
  | EmptyString => EmptyString
  | String c s' =>
      if continues_char c then String c (take n s')
      else match n with
           | O => EmptyString
           | S n' => String c (take n' s')
           end
  end.

(** The text after the first [n] bytes of [s]. *)
Fixpoint drop (n : nat) (s : string) : string :=
  match n, s with
  | O, _ => s
  | _, EmptyString => EmptyString
  | S n', String _ s' => drop n' s'
  end.

(** [s.split(sep)[0]]: the text before the first occurrence of [sep]
    (all of [s] when there is none).  [sep] is not empty. *)
Fixpoint before_first (sep s : string) : string :=
  match s with
  | EmptyString => EmptyString
  | String c s' =>
      if startswith s sep then EmptyString else String c (before_first sep s')
  end.

(** The text after the first occurrence of [sep], if there is one. *)
Fixpoint after_first (sep s : string) : option string :=
  match s with
  | EmptyString => None
  | String _ s' =>
      if startswith s sep then Some (drop (String.length sep) s)
      else after_first sep s'
  end.

(** [s.replace(' ', '')] and the like: every occurrence of the character
    is dropped. *)
Fixpoint remove_char (x : ascii) (s : string) : string :=
  match s with
  | EmptyString => EmptyString
  | String c s' =>
      if Ascii.eqb c x then remove_char x s' else String c (remove_char x s')
  end.

(** [s.isascii()]: every character is below U+0080, and is its own
    encoding. *)
Fixpoint isascii (s : string) : bool :=
  match s with
  | EmptyString => true
  | String c s' => (N_of_ascii c <? 128)%N && isascii s'
  end.

(** [any(k in s for k in ks)] *)
Definition any_in (ks : list string) (s : string) : bool :=
  existsb (fun k => contains k s) ks.


End PyStr.

(** ** The cover-letter generator: formatting *)

Module CoverLetterFormat.
Import PyStr.


Definition closings : list string := ["sincerely"; "best regards"; "thank you"].


(** The two tests of [_format_cover_letter], as predicates on a text. *)
Definition header_present (s : string) : bool :=
  startswith (strip s) "[Your Name]" || startswith (strip s) "Dear".

Definition closing_present (s : string) : bool :=
  any_in closings (lower s).

(** The CoverLetter invariant, with the two tests of the formatter. *)
Definition cover_letter_invariant (s : string) : bool :=
  header_present s && closing_present s.


End CoverLetterFormat.

(** ** Python exceptions and fallible computations *)

Module Py.

(** The exception classes that occur in the components.  All of them
    derive from [Exception], so that [except Exception] catches each. *)
Inductive exc_class : Type :=
| ExceptionCls          (* a plain [Exception(...)] *)
| ValueErrorCls
| TypeErrorCls
| OverflowErrorCls
| UnboundLocalErrorCls
| UnicodeDecodeErrorCls
| LibraryErrorCls (name : string).   (* raised by a third-party library *)

(** An exception value: its class and [str(e)]. *)
Record exception : Type := mkExc { exc_cls : exc_class; exc_str : string }.

Inductive result (A : Type) : Type :=
| Ok (a : A)
| Raise (e : exception).
Arguments Ok {A} a.
Arguments Raise {A} e.

Definition bind {A B} (r : result A) (k : A -> result B) : result B :=
  match r with
  | Ok a => k a
  | Raise e => Raise e
  end.

(** [try: body except Exception as e: handler(e)] *)
Definition try_except {A} (body : result A) (handler : exception -> result A)
  : result A :=
  match body with
  | Ok a => Ok a
  | Raise e => handler e
  end.

Definition is_ok {A} (r : result A) : bool :=
  match r with Ok _ => true | Raise _ => false end.

End Py.

#[global] Instance result_ret : MRet Py.result := @Py.Ok.
#[global] Instance result_bind : MBind Py.result :=
  fun A B k r => Py.bind r k.

(** ** The résumé parser ([resume_parser.py]) *)

Module ResumeParser.
Import PyStr Py.

(** An uploaded file: its name and its bytes. *)
Record upload : Type := mkUpload { name : string; content : string }.

(** The readers the extractor delegates to.  [PdfReader_pages] stands for
    [PyPDF2.PdfReader(file).pages] with [extract_text()] taken of every
    page, [Document_paragraphs] for [docx.Document(file).paragraphs] with
    the [text] of every paragraph, [decode_utf8] for
    [bytes.decode('utf-8')].  Each may raise. *)
Record readers : Type := mkReaders {
  PdfReader_pages : string -> result (list string);
  Document_paragraphs : string -> result (list string);
  decode_utf8 : string -> result string
}.

Definition DOT : ascii := ascii_of_nat 46.

(** [file.name.split('.')[-1].lower()] *)
Definition file_extension (file : upload) : string :=
  lower (List.last (split_char DOT (name file)) EmptyString).

(** The loop [for x in xs: text += x + "\n"]. *)
Definition concat_lines (xs : list string) : string :=
  fold_left (fun text x => text +:+ x +:+ nl) xs EmptyString.

Definition _extract_from_pdf (lib : readers) (file : upload) : result string :=
  pages ← PdfReader_pages lib (content file);
  Ok (strip (concat_lines pages)).

Definition _extract_from_docx (lib : readers) (file : upload) : result string :=
  paragraphs ← Document_paragraphs lib (content file);
  Ok (strip (concat_lines paragraphs)).

Definition _extract_from_txt (lib : readers) (file : upload) : result string :=
  decode_utf8 lib (content file).

Definition unsupported_message (file_extension : string) : string :=
  "Unsupported file format: " +:+ file_extension.

Definition wrap_message (cause : string) : string :=
  "Error extracting text from resume: " +:+ cause.

(** [ResumeParser.extract_text] *)
Definition extract_text (lib : readers) (file : upload) : result string :=
  try_except
    (let file_extension := file_extension file in
     if String.eqb file_extension "pdf" then _extract_from_pdf lib file
     else if String.eqb file_extension "docx" then _extract_from_docx lib file
     else if String.eqb file_extension "txt" then _extract_from_txt lib file
     else Raise (mkExc ValueErrorCls (unsupported_message file_extension)))
    (fun e => Raise (mkExc ExceptionCls (wrap_message (exc_str e)))).

(** *** A concrete setting for the readers *)

Definition byte_in (lo hi : N) (c : ascii) : bool :=
  let n := N_of_ascii c in ((lo <=? n) && (n <=? hi))%N.

Definition is_continuation : ascii -> bool := byte_in 128 191.

(** The second byte allowed after the lead byte [a] of a sequence of three
    bytes, respectively of four. *)
Definition second_of_three (a b : ascii) : bool :=
  byte_in 224 224 a && byte_in 160 191 b
  || byte_in 225 236 a && is_continuation b
  || byte_in 237 237 a && byte_in 128 159 b
  || byte_in 238 239 a && is_continuation b.

Definition second_of_four (a b : ascii) : bool :=
  byte_in 240 240 a && byte_in 144 191 b
  || byte_in 241 243 a && is_continuation b
  || byte_in 244 244 a && byte_in 128 143 b.

(** Well-formed UTF-8 (RFC 3629). *)
Fixpoint utf8_valid (s : string) : bool :=
  match s with
  | EmptyString => true
  | String a s1 =>
    if byte_in 0 127 a then utf8_valid s1
    else
      match s1 with
      | EmptyString => false
      | String b s2 =>
        if byte_in 194 223 a then is_continuation b && utf8_valid s2
        else
          match s2 with
          | EmptyString => false
          | String c s3 =>
            if second_of_three a b then is_continuation c && utf8_valid s3
            else
              match s3 with
              | EmptyString => false
              | String d s4 =>
                  second_of_four a b && is_continuation c
                  && is_continuation d && utf8_valid s4
              end
          end
      end
  end.

(** [bytes.decode('utf-8')]: a text is represented by its encoding, so
    decoding checks the bytes and keeps them.  Of the message of the error
    only the beginning is kept (Python goes on with the byte, its position
    and the reason). *)
Definition utf8_decode (bytes : string) : result string :=
  if utf8_valid bytes then Ok bytes
  else Raise (mkExc UnicodeDecodeErrorCls "'utf-8' codec can't decode byte").

(** Readers for uploads none of which is a PDF or DOCX document: both
    document readers reject their input. *)
Definition text_only : readers :=
  mkReaders
    (fun _ => Raise (mkExc (LibraryErrorCls "PdfReadError") "EOF marker not found"))
    (fun _ => Raise (mkExc (LibraryErrorCls "BadZipFile") "File is not a zip file"))
    utf8_decode.


(** *** Section segmentation *)

Definition section_names : list string :=
  ["contact"; "summary"; "experience"; "education"; "skills"; "projects"].

(** The initial [sections] dictionary. *)
Definition empty_sections : gmap string string :=
  <["contact" := ""]> (<["summary" := ""]> (<["experience" := ""]>
  (<["education" := ""]> (<["skills" := ""]> (<["projects" := ""]> ∅))))).

(** [section_keywords], in the insertion order of the dictionary. *)
Definition section_keywords : list (string * list string) :=
  [ ("contact", ["contact"; "phone"; "email"; "address"]);
    ("summary", ["summary"; "objective"; "profile"; "about"]);
    ("experience", ["experience"; "employment"; "work history"; "professional"]);
    ("education", ["education"; "degree"; "university"; "college"; "school"]);
    ("skills", ["skills"; "technical"; "competencies"; "technologies"]);
    ("projects", ["projects"; "portfolio"; "achievements"]) ].

(** The operations of [str] that the segmenter applies to a line of the
    résumé, a text of any script: [line.lower()], [line.strip()] and
    [len(line)].  The segmenter is defined for any implementation of
    them. *)
Record str_ops : Type := mkStrOps {
  ops_lower : string -> string;
  ops_strip : string -> string;
  ops_len : string -> nat
}.

(** The operations of this file: case and white space of the ASCII range,
    lengths in code points. *)
Definition model_ops : str_ops := mkStrOps lower strip len.

(** The inner loop over [section_keywords.items()], with its [break]:
    the first section one of whose keywords occurs in
    [line_lower = line.lower().strip()], provided [len(line.strip()) < 50]:
    the stripped line has fewer than 50 characters. *)
Fixpoint find_section (ops : str_ops) (kws : list (string * list string))
  (line : string) : option string :=
  match kws with
  | [] => None
  | (section, keywords) :: rest =>
      if any_in keywords (ops_strip ops (ops_lower ops line))
         && (ops_len ops (ops_strip ops line) <? 50)%nat
      then Some section
      else find_section ops rest line
  end.

(** The state of the outer loop. *)
Record seg_state : Type := mkSeg {
  sections : gmap string string;
  current_section : option string;
  section_content : list string
}.

(** [if current_section and section_content:
       sections[current_section] = '\n'.join(section_content)] *)
Definition flush (st : seg_state) : gmap string string :=
  match current_section st, section_content st with
  | Some cur, _ :: _ => <[cur := join nl (section_content st)]> (sections st)
  | _, _ => sections st
  end.

(** One iteration of [for line in lines]. *)
Definition seg_step (ops : str_ops) (st : seg_state) (line : string)
  : seg_state :=
  match find_section ops section_keywords line with
  | Some section_found => mkSeg (flush st) (Some section_found) []
  | None =>
      match current_section st with
      | Some _ =>
          if negb (is_empty (ops_strip ops line))
          then mkSeg (sections st) (current_section st)
                     (section_content st ++ [line])
          else st
      | None => st
      end
  end.

(** The body of [ResumeParser.extract_key_sections], for any
    implementation of the three operations. *)
Definition extract_key_sections_with (ops : str_ops) (resume_text : string)
  : gmap string string :=
  let lines := split_char LF resume_text in
  flush (fold_left (seg_step ops) lines (mkSeg empty_sections None [])).

(** [ResumeParser.extract_key_sections] *)
Definition extract_key_sections (resume_text : string) : gmap string string :=
  extract_key_sections_with model_ops resume_text.

(** A line is accepted as a section header when the inner loop finds a
    section for it. *)
Definition is_header (ops : str_ops) (line : string) : bool :=
  match find_section ops section_keywords line with
  | Some _ => true
  | None => false
  end.

(** The set of the section names. *)
Definition section_set : gset string := list_to_set section_names.

(** The invariant of the outer loop. *)
Definition seg_inv (st : seg_state) : Prop :=
  dom (sections st) = section_set
  /\ forall k, current_section st = Some k -> k ∈ section_set.

(** *** Skill keywords *)



End ResumeParser.

(** ** The cover-letter generator ([cover_letter_generator.py]) *)

Module CoverLetterGenerator.
Import PyStr Py CoverLetterFormat.

(** A request to the generation capability.  The instruction text of each
    of the four call shapes is a constant of the source; a request is
    represented by its shape and the texts interpolated in it. *)
Inductive request : Type :=
| AnalyzeJobMatch (resume_text job_description : string)
| ExtractResumeBullets (resume_text job_description : string)
| WriteCoverLetter (job_description company_name company_context
                    bullets_text resume_text : string)
| CustomizeCoverLetter (base_cover_letter company_info : string).

(** The generation capability ([self.llm.invoke]): its answer, the
    [content] of the response or an exception, may depend on the requests
    made before. *)
Definition capability : Type := list request -> request -> result string.

(** Computations that consult the capability thread the log of the
    requests issued so far. *)
Definition LLM (A : Type) : Type := list request -> result A * list request.

Definition ret {A} (a : A) : LLM A := fun log => (Ok a, log).

Definition and_then {A B} (m : LLM A) (k : A -> LLM B) : LLM B :=
  fun log =>
    match m log with
    | (Ok a, log') => k a log'
    | (Raise e, log') => (Raise e, log')
    end.

Definition invoke (llm : capability) (req : request) : LLM string :=
  fun log => (llm log req, log ++ [req]).

(** [analyze_job_match] *)
Definition analyze_job_match (llm : capability)
    (resume_text job_description : string) : LLM string :=
  and_then (invoke llm (AnalyzeJobMatch resume_text job_description)) ret.




(** [company_context] of [generate_cover_letter] *)
Definition company_context (company_info : string) : string :=
  if negb (is_empty company_info)
  then nl +:+ nl +:+ "COMPANY RESEARCH:" +:+ nl +:+ company_info
  else "".


(** [customize_for_company] *)
Definition customize_for_company (llm : capability)
    (base_cover_letter company_info : string) : LLM string :=
  if is_empty company_info then ret base_cover_letter
  else and_then
         (invoke llm (CustomizeCoverLetter base_cover_letter company_info))
         ret.


(** A capability that answers every request with the same text. *)
Definition always (answer : string) : capability := fun _ _ => Ok answer.


End CoverLetterGenerator.

(** ** The application tracker ([airtable_tracker.py]) *)

Module AirtableTracker.
Import PyStr Py.

(** *** Calendar dates, as [datetime] handles them *)

Record date : Type := mkDate { year : N; month : N; day : N }.

Definition is_leap (y : N) : bool :=
  ((y mod 4 =? 0) && (negb (y mod 100 =? 0) || (y mod 400 =? 0)))%N.

Definition days_in_month (y m : N) : N :=
  match m with
  | 2 => if is_leap y then 29 else 28
  | 4 | 6 | 9 | 11 => 30
  | _ => 31
  end%N.

Definition tomorrow (d : date) : date :=
  if (day d <? days_in_month (year d) (month d))%N
  then mkDate (year d) (month d) (day d + 1)
  else if (month d <? 12)%N then mkDate (year d) (month d + 1) 1
  else mkDate (year d + 1) 1 1.

(** [d + timedelta(days=n)]; [datetime] stops at year 9999. *)
Definition add_days (n : nat) (d : date) : result date :=
  let d' := Nat.iter n tomorrow d in
  if (9999 <? year d')%N
  then Raise (mkExc OverflowErrorCls "date value out of range")
  else Ok d'.

Definition digit (n : N) : ascii := ascii_of_N (48 + n mod 10).

Definition pad2 (n : N) : string :=
  String (digit (n / 10)) (String (digit n) EmptyString).

Definition pad4 (n : N) : string :=
  String (digit (n / 1000)) (String (digit (n / 100)) (pad2 n)).

(** [d.strftime('%Y-%m-%d')] *)
Definition strftime_ymd (d : date) : string :=
  pad4 (year d) +:+ "-" +:+ pad2 (month d) +:+ "-" +:+ pad2 (day d).

(** *** The tracking store *)

(** The remote table: the rows it holds, and whether it can be reached
    (an insertion into a table that cannot be reached raises). *)
Record table : Type := mkTable {
  reachable : bool;
  rows : list (gmap string string)
}.

(** [Airtable.insert] *)
Definition insert (t : table) (record_data : gmap string string)
  : result table :=
  if reachable t then Ok (mkTable true (rows t ++ [record_data]))
  else Raise (mkExc (LibraryErrorCls "HTTPError") "request failed").

(** [dict.get(key, default)] *)
Definition get (d : gmap string string) (key default : string) : string :=
  match d !! key with Some v => v | None => default end.

(** Local names.  The body of [add_job_application] contains the
    statement [from datetime import datetime, timedelta] (in the branch
    that adds the follow-up date), which makes [datetime] a local name of
    the whole function and hides the import at the top of the module: the
    name is unbound until that statement has run, and reading it before
    raises [UnboundLocalError]. *)
Definition load_local (name : string) (bound : bool) : result unit :=
  if bound then Ok tt
  else Raise (mkExc UnboundLocalErrorCls
                ("cannot access local variable '" +:+ name +:+
                 "' where it is not associated with a value")).

(** The dictionary literal that sets the defaults; [now] is the reading
    of [datetime.now()] for the default of the application date. *)
Definition defaults (now : date) (application_data : gmap string string)
  : gmap string string :=
  <["Contact Person" := get application_data "Contact Person" ""]> (
  <["Salary Range" := get application_data "Salary Range" ""]> (
  <["Notes" := get application_data "Notes" ""]> (
  <["Job Description URL" := get application_data "Job Description URL" ""]> (
  <["Application Date" :=
      get application_data "Application Date" (strftime_ymd now)]> (
  <["Status" := get application_data "Status" "Applied"]> (
  <["Position" := get application_data "Position" ""]> (
  <["Company" := get application_data "Company" ""]> ∅))))))).

(** The statements under the comment "Add follow-up date (1 week from
    application date)"; [now] is the reading of [datetime.now()] there. *)
Definition add_follow_up (now : date) (application_data : gmap string string)
    (record_data : gmap string string) : result (gmap string string) :=
  match application_data !! "Follow-up Date" with
  | None =>
      let datetime_bound := true in     (* the import has just run *)
      _ ← load_local "datetime" datetime_bound;
      follow_up ← add_days 7 now;
      Ok (<["Follow-up Date" := strftime_ymd follow_up]> record_data)
  | Some _ => Ok record_data
  end.

(** The dictionary [record_data] that [add_job_application] builds and
    hands to [insert].  [now_1] and [now_2] are the two readings of
    [datetime.now()], in the order of the source. *)
Definition record_data (now_1 now_2 : date)
    (application_data : gmap string string) : result (gmap string string) :=
  let datetime_bound := false in        (* on entry of the function *)
  _ ← load_local "datetime" datetime_bound;
  add_follow_up now_2 application_data (defaults now_1 application_data).

(** [AirtableTracker.add_job_application]; [self.airtable] is [None] when
    no base identifier was given. *)
Definition add_job_application (airtable : option table)
    (now_1 now_2 : date) (application_data : gmap string string)
  : bool * option table :=
  match airtable with
  | None => (false, None)
  | Some t =>
      match (data ← record_data now_1 now_2 application_data; insert t data) with
      | Ok t' => (true, Some t')
      | Raise _ => (false, Some t)
      end
  end.

End AirtableTracker.

(** ** The company researcher ([company_researcher.py]) *)

Module CompanyResearcher.
Import PyStr Py.

(** *** The outside world *)

(** The argument of [GoogleSearch]. *)
Record search_params : Type := mkParams {
  q : string; api_key : string; tbm : option string; num : nat
}.

(** An entry of [organic_results] or [news_results]. *)
Record search_item : Type := mkItem {
  snippet : option string; item_title : option string
}.

(** The dictionary answered by [get_dict()]. *)
Record search_results : Type := mkResults {
  organic_results : option (list search_item);
  news_results : option (list search_item)
}.

(** An HTTP response. *)
Record response : Type := mkResponse { status_code : Z; body : string }.

(** An element of a parsed page, with what the scraper reads of it:
    its tag, its [href] attribute, its [string], its own
    [get_text(strip=True)] and that of its parent, if it has one. *)
Record element : Type := mkElement {
  tag : string;
  href : option string;
  el_string : option string;
  el_text : string;
  parent_text : option string
}.

(** The services the researcher calls.  [GoogleSearch] is [None] when the
    search client could not be imported; [search], [requests_get] and
    [BeautifulSoup] may raise. *)
Record world : Type := mkWorld {
  GoogleSearch : option (search_params -> result search_results);
  requests_get : string -> result response;
  BeautifulSoup : string -> result (list element)
}.

(** [GoogleSearch({...}).get_dict()]; calling [None] raises. *)
Definition search (w : world) (p : search_params) : result search_results :=
  match GoogleSearch w with
  | Some client => client p
  | None => Raise (mkExc TypeErrorCls "'NoneType' object is not callable")
  end.

(** *** Research results *)

(** The dictionary [info] that the research functions fill: a key is
    either absent or bound. *)
Record info : Type := mkInfo {
  info_basic_info : option string;
  info_recent_news : option (list string);
  info_company_culture : option string
}.

Definition no_info : info := mkInfo None None None.

(** The dictionary [company_info] of [research_company]. *)
Record company_info : Type := mkCompanyInfo {
  basic_info : string;
  recent_news : list string;
  company_culture : string;
  size_and_industry : string;
  recent_achievements : list string
}.

Definition default_company_info : company_info :=
  mkCompanyInfo "" [] "" "" [].

Definition or_else {A} (new old : option A) : option A :=
  match new with Some _ => new | None => old end.

(** [info.update(other)] *)
Definition info_update (i other : info) : info :=
  mkInfo (or_else (info_basic_info other) (info_basic_info i))
         (or_else (info_recent_news other) (info_recent_news i))
         (or_else (info_company_culture other) (info_company_culture i)).

(** [company_info.update(info)] *)
Definition update (c : company_info) (i : info) : company_info :=
  mkCompanyInfo
    (default (basic_info c) (info_basic_info i))
    (default (recent_news c) (info_recent_news i))
    (default (company_culture c) (info_company_culture i))
    (size_and_industry c)
    (recent_achievements c).

(** [[r["snippet"] for r in rs if "snippet" in r]] *)
Definition snippets (rs : list search_item) : list string :=
  omap snippet rs.

Definition titles (rs : list search_item) : list string :=
  omap item_title rs.

Definition mentions_culture (s : string) : bool :=
  contains "culture" (lower s) || contains "values" (lower s).

Definition culture_snippets (rs : list search_item) : list string :=
  List.filter mentions_culture (snippets rs).

(** [_research_with_serpapi]: three searches in one [try]; an exception
    leaves [info] as it was filled so far. *)
Definition _research_with_serpapi (w : world) (serpapi_key company_name : string)
  : info :=
  let info := no_info in
  match search w (mkParams (company_name +:+ " company about") serpapi_key None 5) with
  | Raise _ => info
  | Ok results =>
    let info :=
      match organic_results results with
      | Some rs => mkInfo (Some (join " " (snippets (firstn 3 rs))))
                          (info_recent_news info) (info_company_culture info)
      | None => info
      end in
    match search w (mkParams (company_name +:+ " news 2024") serpapi_key (Some "nws") 3) with
    | Raise _ => info
    | Ok news =>
      let info :=
        match news_results news with
        | Some ns => mkInfo (info_basic_info info) (Some (titles (firstn 3 ns)))
                            (info_company_culture info)
        | None => info
        end in
      match search w (mkParams (company_name +:+ " company culture careers values")
                               serpapi_key None 3) with
      | Raise _ => info
      | Ok culture =>
        match organic_results culture with
        | Some rs => mkInfo (info_basic_info info) (info_recent_news info)
                            (Some (join " " (culture_snippets (firstn 2 rs))))
        | None => info
        end
      end
    end
  end.

(** *** Scraping *)

Definition truthy (s : option string) : bool :=
  match s with Some t => negb (is_empty t) | None => false end.

(** [string=lambda text: text and any(k in text.lower() for k in ks)] *)
Definition string_matches (ks : list string) (e : element) : bool :=
  match el_string e with
  | Some text => negb (is_empty text) && any_in ks (lower text)
  | None => false
  end.

Definition has_href (e : element) : bool :=
  match href e with Some _ => true | None => false end.

Definition tag_in (tags : list string) (e : element) : bool :=
  existsb (String.eqb (tag e)) tags.

(** The loop over [about_sections[:2]], with its [break]. *)
Fixpoint first_long_parent_text (sections : list element) : option string :=
  match sections with
  | [] => None
  | section :: rest =>
      match parent_text section with
      | Some text_content =>
          if (50 <? len text_content)%nat
          then Some (take 500 text_content)
          else first_long_parent_text rest
      | None => first_long_parent_text rest
      end
  end.

(** [_scrape_company_website] *)
Definition _scrape_company_website (w : world) (website_url : string) : info :=
  match requests_get w website_url with
  | Raise _ => no_info
  | Ok response =>
    if (status_code response =? 200)%Z then
      match BeautifulSoup w (body response) with
      | Raise _ => no_info
      | Ok soup =>
        let about_sections :=
          List.filter (fun e => tag_in ["p"; "div"] e
                                && string_matches ["about us"; "our company"; "our mission"] e)
                      soup in
        let basic := first_long_parent_text (firstn 2 about_sections) in
        let news_links :=
          List.filter (fun e => tag_in ["a"] e && has_href e
                                && string_matches ["news"; "press"; "announcement"] e)
                      soup in
        let news :=
          match news_links with
          | [] => None
          | _ :: _ => Some (map el_text (firstn 3 news_links))
          end in
        mkInfo basic news None
      end
    else no_info
  end.

Definition SPACE : ascii := ascii_of_nat 32.

(** The loop over [links[:10]], with its [break]: the first target of a
    redirect link that contains the company name. *)
Fixpoint find_company_website (company_name : string) (links : list element)
  : option string :=
  match links with
  | [] => None
  | link :: rest =>
      let href := default "" (href link) in
      match after_first "url?q=" href with
      | Some after =>
          let actual_url := before_first "&" (before_first "url?q=" after) in
          if contains (remove_char SPACE (lower company_name)) (lower actual_url)
          then Some actual_url
          else find_company_website company_name rest
      | None => find_company_website company_name rest
      end
  end.

(** [_research_with_scraping] *)
Definition _research_with_scraping (w : world) (company_name : string) : info :=
  let search_url :=
    "https://www.google.com/search?q=" +:+ company_name +:+ "+official+website" in
  match requests_get w search_url with
  | Raise _ => no_info
  | Ok response =>
    if (status_code response =? 200)%Z then
      match BeautifulSoup w (body response) with
      | Raise _ => no_info
      | Ok soup =>
        let links := List.filter (fun e => tag_in ["a"] e && has_href e) soup in
        let company_website := find_company_website company_name (firstn 10 links) in
        if truthy company_website
        then info_update no_info
               (_scrape_company_website w (default "" company_website))
        else no_info
      end
    else no_info
  end.

(** *** The report *)

Definition bullet_lines (items : list string) : string :=
  fold_left (fun text item => text +:+ "• " +:+ item +:+ nl) items "".

(** [_format_company_info] *)
Definition _format_company_info (company_name : string) (info : company_info)
  : string :=
  let formatted_info := "Company Research: " +:+ company_name +:+ nl +:+ nl in
  let formatted_info :=
    if negb (is_empty (basic_info info))
    then formatted_info +:+ "About the Company:" +:+ nl
           +:+ take 300 (basic_info info) +:+ "..." +:+ nl +:+ nl
    else formatted_info in
  let formatted_info :=
    match recent_news info with
    | _ :: _ => formatted_info +:+ "Recent News/Updates:" +:+ nl
                  +:+ bullet_lines (firstn 3 (recent_news info)) +:+ nl
    | [] => formatted_info
    end in
  let formatted_info :=
    if negb (is_empty (company_culture info))
    then formatted_info +:+ "Company Culture/Values:" +:+ nl
           +:+ take 200 (company_culture info) +:+ "..." +:+ nl +:+ nl
    else formatted_info in
  let formatted_info :=
    if negb (is_empty (size_and_industry info))
    then formatted_info +:+ "Industry & Size:" +:+ nl
           +:+ size_and_industry info +:+ nl +:+ nl
    else formatted_info in
  let formatted_info :=
    match recent_achievements info with
    | _ :: _ => formatted_info +:+ "Recent Achievements:" +:+ nl
                  +:+ bullet_lines (firstn 2 (recent_achievements info))
    | [] => formatted_info
    end in
  formatted_info +:+ nl +:+
  "[Use this information to show genuine interest and knowledge about the company in your cover letter]".

(** The text returned by the [except] branch of [research_company]. *)
Definition disclaimer (company_name : string) : string :=
  "Limited company information available for " +:+ company_name +:+
  ". Consider researching the company manually for better personalization.".

(** [CompanyResearcher.research_company]; [serpapi_key] is [None] or the
    credential. *)
Definition research_company (w : world) (serpapi_key : option string)
    (company_name : string) : result string :=
  let company_info := default_company_info in
  try_except
    (let company_info :=
       if truthy serpapi_key
       then update company_info
              (_research_with_serpapi w (default "" serpapi_key) company_name)
       else update company_info (_research_with_scraping w company_name) in
     Ok (_format_company_info company_name company_info))
    (fun e => Ok (disclaimer company_name)).

(** A world in which nothing can be reached: no search client and no
    network. *)
Definition offline : world :=
  mkWorld None
          (fun _ => Raise (mkExc (LibraryErrorCls "ConnectionError") "no network"))
          (fun _ => Ok []).




End CompanyResearcher.

(** ** The other queries of the researcher ([company_researcher.py]) *)

Module CompanyQueries.
Import PyStr Py CompanyResearcher.

(** [get_company_linkedin_info] *)
Definition get_company_linkedin_info (w : world) (serpapi_key : option string)
    (company_name : string) : option string :=
  if negb (truthy serpapi_key) then None
  else
    match search w (mkParams (company_name +:+ " site:linkedin.com/company")
                             (default "" serpapi_key) None 1) with
    | Raise _ => None
    | Ok results =>
        match organic_results results with
        | Some (result :: _) => snippet result
        | Some [] => None
        | None => None
        end
    end.

Definition manual_research (industry : string) : string :=
  "Manual research recommended for " +:+ industry +:+ " industry trends.".

(** [research_industry_trends] *)
Definition research_industry_trends (w : world) (serpapi_key : option string)
    (industry : string) : string :=
  if negb (truthy serpapi_key) then manual_research industry
  else
    match search w (mkParams (industry +:+ " trends 2024 outlook")
                             (default "" serpapi_key) None 3) with
    | Raise _ => manual_research industry
    | Ok results =>
        match organic_results results with
        | Some rs =>
            let trend_info := snippets (firstn 3 rs) in
            "Industry Trends in " +:+ industry +:+ ":" +:+ nl
              +:+ join nl (firstn 2 trend_info)
        | None => manual_research industry
        end
    end.

(** A world whose search client answers every query with the given
    results and that has no network besides. *)
Definition answering (results : search_results) : world :=
  mkWorld (Some (fun _ => Ok results))
          (fun _ => Raise (mkExc (LibraryErrorCls "ConnectionError") "no network"))
          (fun _ => Ok []).

End CompanyQueries.

(** ** The reports of the tracker ([airtable_tracker.py]) *)

Module AirtableReports.
Import PyStr Py AirtableTracker.

(** [Airtable.get_all()], with the [fields] of every record. *)
Definition get_all (t : table) : result (list (gmap string string)) :=
  if reachable t then Ok (rows t)
  else Raise (mkExc (LibraryErrorCls "HTTPError") "request failed").

(** [get_all_applications] *)
Definition get_all_applications (airtable : option table)
  : list (gmap string string) :=
  match airtable with
  | None => []
  | Some t =>
      match get_all t with
      | Ok records => records
      | Raise _ => []
      end
  end.

(** The dictionary [summary].  [companies_applied_to] is built as a set and
    turned into a list at the end, in no specified order: it is kept as a
    set. *)
Record application_summary : Type := mkSummary {
  total_applications : nat;
  status_breakdown : gmap string nat;
  companies_applied_to : gset string;
  recent_applications : list (gmap string string)
}.

(** One iteration of [for app in applications].  [is_recent] stands for the
    test on the application date, [datetime.strptime(app_date, '%Y-%m-%d')]
    succeeding with [(datetime.now() - app_datetime).days <= 7]; a date
    that cannot be read is passed over. *)
Definition summary_step (is_recent : string -> bool)
    (summary : application_summary) (app : gmap string string)
  : application_summary :=
  let status := get app "Status" "Unknown" in
  let breakdown :=
    <[status := (default 0 (status_breakdown summary !! status) + 1)%nat]>
      (status_breakdown summary) in
  let company := get app "Company" "" in
  let companies :=
    if negb (is_empty company)
    then {[company]} ∪ companies_applied_to summary
    else companies_applied_to summary in
  let app_date := get app "Application Date" "" in
  let recent :=
    if negb (is_empty app_date) && is_recent app_date
    then recent_applications summary ++ [app]
    else recent_applications summary in
  mkSummary (total_applications summary) breakdown companies recent.

(** [generate_application_summary]; the empty dictionary is [None]. *)
Definition generate_application_summary (is_recent : string -> bool)
    (airtable : option table) : option application_summary :=
  match airtable with
  | None => None
  | Some _ =>
      let applications := get_all_applications airtable in
      match applications with
      | [] => None
      | _ :: _ =>
          Some (fold_left (summary_step is_recent) applications
                  (mkSummary (length applications) ∅ ∅ []))
      end
  end.

(** The status under which an application is counted. *)
Definition status_of (app : gmap string string) : string :=
  get app "Status" "Unknown".

(** The number of applications with a given status. *)
Definition count_status (status : string) (apps : list (gmap string string)) : nat :=
  length (List.filter (fun app => String.eqb (status_of app) status) apps).

(** The sum of the counts of a histogram. *)
Definition histogram_total (h : gmap string nat) : nat :=
  map_fold (fun _ n acc => (n + acc)%nat) 0%nat h.

End AirtableReports.

(** ** The mail sender ([email_sender.py]) *)

Module EmailSender.
Import PyStr Py.

(** [s.replace(old, new)] for a pattern [old] that is not empty: the
    occurrences are taken from the left and do not overlap.  [skip] counts
    the characters of a replaced occurrence still to pass over. *)
Fixpoint replace_from (old new : string) (skip : nat) (s : string) : string :=
  match s with
  | EmptyString => EmptyString
  | String c s' =>
      match skip with
      | S k => replace_from old new k s'
      | O =>
          if startswith s old
          then new +:+ replace_from old new (String.length old - 1) s'
          else String c (replace_from old new 0 s')
      end
  end.

Definition replace (old new s : string) : string := replace_from old new 0 s.

(** [_create_email_body] *)
Definition _create_email_body
    (cover_letter applicant_name position company_name : string) : string :=
  let clean_cover_letter := replace "[Your Name]" applicant_name cover_letter in
  let clean_cover_letter := replace "[Company Name]" company_name clean_cover_letter in
  let clean_cover_letter := replace "[Position]" position clean_cover_letter in
  "Dear Hiring Manager," +:+ nl +:+ nl +:+
  "I hope this email finds you well. I am writing to express my strong interest in the "
    +:+ position +:+ " position at " +:+ company_name +:+ "." +:+ nl +:+ nl +:+
  clean_cover_letter +:+ nl +:+ nl +:+
  "I have attached my resume for your review. I would welcome the opportunity to discuss how my background and enthusiasm can contribute to your team."
    +:+ nl +:+ nl +:+
  "Thank you for your time and consideration. I look forward to hearing from you."
    +:+ nl +:+ nl +:+
  "Best regards," +:+ nl +:+
  applicant_name +:+ nl +:+ nl +:+
  "---" +:+ nl +:+
  "This application was generated using an AI-powered job application assistant to ensure optimal matching and personalization."
    +:+ nl.

(** A part of a message: its content type, its [Content-Disposition]
    header if it has one, and its payload (for an attachment, the bytes
    that [encode_base64] encodes). *)
Record mime_part : Type := mkPart {
  content_type : string;
  content_disposition : option string;
  payload : string
}.

(** A message: the three headers the sender sets and the parts attached. *)
Record email_message : Type := mkMessage {
  msg_from : string;
  msg_to : string;
  msg_subject : string;
  parts : list mime_part
}.

(** What the sender reads of the file system: [os.path.exists] and the
    content [open(path, "rb").read()] gives, or the exception it raises. *)
Record filesystem : Type := mkFs {
  path_exists : string -> bool;
  read_bytes : string -> result string
}.

(** The mail service: opening the connection (after the TLS context is
    made), [starttls], [login], the delivery of a message (its
    serialisation included) and the [QUIT] sent on leaving the [with]
    block may each raise.  [SMTP.__exit__] sends
    [QUIT] and raises [SMTPResponseException] when the reply is not 221;
    a connection the server has dropped is passed over. *)
Record smtp_service : Type := mkSmtp {
  connect : string -> N -> result unit;
  starttls : result unit;
  login : string -> string -> result unit;
  deliver : string -> string -> email_message -> result unit;
  quit : result unit
}.

(** The fields of an [EmailSender]. *)
Record sender : Type := mkSender {
  email_address : string;
  password : string;
  smtp_server : string;
  smtp_port : N
}.

Definition SLASH : ascii := ascii_of_nat 47.

(** [os.path.basename] *)
Definition basename (file_path : string) : string :=
  List.last (split_char SLASH file_path) EmptyString.

Definition attachment_part (file_path data : string) : mime_part :=
  mkPart "application/octet-stream"
         (Some ("attachment; filename= " +:+ basename file_path))
         data.

(** [msg.attach(part)] *)
Definition attach (msg : email_message) (part : mime_part) : email_message :=
  mkMessage (msg_from msg) (msg_to msg) (msg_subject msg) (parts msg ++ [part]).

(** [_attach_file]: a file that cannot be read is passed over. *)
Definition _attach_file (fs : filesystem) (msg : email_message)
    (file_path : string) : email_message :=
  match read_bytes fs file_path with
  | Ok data => attach msg (attachment_part file_path data)
  | Raise _ => msg
  end.

(** The first two statements of the [with] blocks. *)
Definition authenticate (svc : smtp_service) (self : sender) : result unit :=
  _ ← starttls svc;
  login svc (email_address self) (password self).

(** Leaving a [with smtplib.SMTP(...) as server] block whose body had the
    given outcome: [__exit__] runs whether the body raised or not, and an
    exception of the [QUIT] replaces that of the body. *)
Definition leave (svc : smtp_service) (body : result unit) : result unit :=
  match quit svc with
  | Ok _ => body
  | Raise e => Raise e
  end.

(** The message [send_application_email] builds. *)
Definition application_message (fs : filesystem) (self : sender)
    (recipient_email subject cover_letter applicant_name position company_name : string)
    (attachments : option (list string)) : email_message :=
  let msg := mkMessage (email_address self) recipient_email subject [] in
  let email_body :=
    _create_email_body cover_letter applicant_name position company_name in
  let msg := attach msg (mkPart "text/plain" None email_body) in
  match attachments with
  | Some ((_ :: _) as files) =>
      fold_left
        (fun msg file_path =>
           if path_exists fs file_path then _attach_file fs msg file_path else msg)
        files msg
  | _ => msg
  end.

(** The mails delivered so far: sender, recipient, message. *)
Definition outbox : Type := list (string * string * email_message).

(** [send_application_email] *)
Definition send_application_email (svc : smtp_service) (fs : filesystem)
    (self : sender)
    (recipient_email subject cover_letter applicant_name position company_name : string)
    (attachments : option (list string)) (sent : outbox) : bool * outbox :=
  let msg := application_message fs self recipient_email subject cover_letter
               applicant_name position company_name attachments in
  match connect svc (smtp_server self) (smtp_port self) with
  | Raise _ => (false, sent)
  | Ok _ =>
      let body := _ ← authenticate svc self;
                  deliver svc (email_address self) recipient_email msg in
      (is_ok (leave svc body),
       if is_ok body
       then sent ++ [(email_address self, recipient_email, msg)]
       else sent)
  end.

(** [test_connection] *)
Definition test_connection (svc : smtp_service) (self : sender) : bool :=
  match connect svc (smtp_server self) (smtp_port self) with
  | Raise _ => false
  | Ok _ => is_ok (leave svc (authenticate svc self))
  end.

(** [send_simple_email] *)
Definition send_simple_email (svc : smtp_service) (self : sender)
    (recipient_email subject body : string) (sent : outbox) : bool * outbox :=
  let msg := mkMessage (email_address self) recipient_email subject
               [mkPart "text/plain" None body] in
  match connect svc (smtp_server self) (smtp_port self) with
  | Raise _ => (false, sent)
  | Ok _ =>
      let body := _ ← authenticate svc self;
                  deliver svc (email_address self) recipient_email msg in
      (is_ok (leave svc body),
       if is_ok body
       then sent ++ [(email_address self, recipient_email, msg)]
       else sent)
  end.

(** A mail service that accepts the password [secret] and nothing else. *)
Definition strict_service : smtp_service :=
  mkSmtp (fun _ _ => Ok tt) (Ok tt)
         (fun _ pw => if String.eqb pw "secret" then Ok tt
                      else Raise (mkExc (LibraryErrorCls "SMTPAuthenticationError")
                                        "Username and Password not accepted"))
         (fun _ _ _ => Ok tt)
         (Ok tt).

(** The same service, when its reply to [QUIT] is not 221. *)
Definition rude_service : smtp_service :=
  mkSmtp (connect strict_service) (starttls strict_service)
         (login strict_service) (deliver strict_service)
         (Raise (mkExc (LibraryErrorCls "SMTPResponseException")
                       "(421, b'Service not available')")).

(** A file system with one readable file, [/home/me/cv.pdf], and one file
    that exists but cannot be read, [/root/secret]. *)
Definition small_fs : filesystem :=
  mkFs (fun path => String.eqb path "/home/me/cv.pdf" || String.eqb path "/root/secret")
       (fun path => if String.eqb path "/home/me/cv.pdf" then Ok "%PDF"
                    else Raise (mkExc (LibraryErrorCls "PermissionError") "Permission denied")).

End EmailSender.

(** ** The application ([app.py]) *)

Module App.
Import PyStr Py CoverLetterGenerator.

(** What a button leaves on the page. *)
Inductive page : Type :=
| MatchAnalysis (match_analysis : string)
| GeneratedCoverLetter (cover_letter file_name : string)
| ErrorMessage (message : string).

Definition missing_input : string :=
  "Please upload a resume and enter a job description first!".


(** A computation that does not consult the generation capability. *)
Definition lift {A} (r : result A) : LLM A := fun log => (r, log).

(** The button "Analyze Resume & Job Match".  An exception of the
    extraction or of the capability leaves the handler. *)
Definition analyze_button (lib : ResumeParser.readers) (llm : capability)
    (resume_file : option ResumeParser.upload) (job_description : string)
  : LLM page :=
  match resume_file with
  | Some file =>
      if negb (is_empty job_description) then
        and_then (lift (ResumeParser.extract_text lib file)) (fun resume_text =>
        and_then (analyze_job_match llm resume_text job_description) (fun match_analysis =>
        ret (MatchAnalysis match_analysis)))
      else ret (ErrorMessage missing_input)
  | None => ret (ErrorMessage missing_input)
  end.



End App.

(** ** Notions used to state properties of the parser *)

Module ParserNotions.
Import PyStr Py ResumeParser.

(** A line that can be part of the content of a section: it is not
    accepted as a header and is not blank. *)
Definition body_line (ops : str_ops) (line : string) : bool :=
  negb (is_header ops line) && negb (is_empty (ops_strip ops line)).

(** What a section can hold for a text with the given lines: nothing, or
    body lines of the text joined by line feeds. *)
Definition section_value_ok (ops : str_ops) (lines : list string)
    (value : string) : Prop :=
  value = ""
  \/ exists content,
       content <> [] /\ value = join nl content
       /\ Forall (fun line => body_line ops line = true /\ In line lines) content.


End ParserNotions.

(** ** Notions used to state properties of the tracker and of the mails *)

Module ReportNotions.
Import PyStr Py AirtableTracker EmailSender.

(** The test of the summary for the recent applications. *)
Definition dated_recently (is_recent : string -> bool)
    (app : gmap string string) : bool :=
  negb (is_empty (get app "Application Date" ""))
  && is_recent (get app "Application Date" "").

(** The part made of a file, if the file exists and can be read. *)
Definition readable_attachment (fs : filesystem) (file_path : string)
  : option mime_part :=
  if path_exists fs file_path then
    match read_bytes fs file_path with
    | Ok data => Some (attachment_part file_path data)
    | Raise _ => None
    end
  else None.

(** The text of a mail before the cover letter and after it. *)
Definition body_opening (position company_name : string) : string :=
  "Dear Hiring Manager," +:+ nl +:+ nl +:+
  "I hope this email finds you well. I am writing to express my strong interest in the "
    +:+ position +:+ " position at " +:+ company_name +:+ "." +:+ nl +:+ nl.

Definition body_ending (applicant_name : string) : string :=
  nl +:+ nl +:+
  "I have attached my resume for your review. I would welcome the opportunity to discuss how my background and enthusiasm can contribute to your team."
    +:+ nl +:+ nl +:+
  "Thank you for your time and consideration. I look forward to hearing from you."
    +:+ nl +:+ nl +:+
  "Best regards," +:+ nl +:+
  applicant_name +:+ nl +:+ nl +:+
  "---" +:+ nl +:+
  "This application was generated using an AI-powered job application assistant to ensure optimal matching and personalization."
    +:+ nl.

End ReportNotions.

(* ===================================================================== *)
(** * Part II.  Properties                                                *)
(* ===================================================================== *)

(** ** Facts about the string primitives *)

Section StringFacts.
Import PyStr.

Lemma app_empty_l (s : string) : "" +:+ s = s.
Proof. reflexivity. Qed.

Lemma app_cons (a : ascii) (s t : string) :
  String a s +:+ t = String a (s +:+ t).
Proof. reflexivity. Qed.

Lemma app_empty_r (s : string) : s +:+ "" = s.
Proof. induction s as [|a s IH]; [reflexivity|]. by rewrite app_cons, IH. Qed.

Lemma app_assoc_str (a b c : string) : (a +:+ b) +:+ c = a +:+ (b +:+ c).
Proof.
  induction a as [|x a IH]; [reflexivity|]. by rewrite !app_cons, IH.
Qed.








(** *** Stripping *)







(** *** Prefixes *)

Lemma startswith_refl_app (t u : string) : startswith (t +:+ u) t = true.
Proof.
  induction t as [|a t IH]; [by destruct u|].
  rewrite app_cons. simpl. by rewrite Ascii.eqb_refl.
Qed.

Lemma startswith_split (s t : string) :
  startswith s t = true -> exists u, s = t +:+ u.
Proof.
  revert s. induction t as [|a t IH]; intros s H.
  - by exists s.
  - destruct s as [|b s]; [discriminate|]. simpl in H.
    destruct (Ascii.eqb a b) eqn:E; [|discriminate].
    apply Ascii.eqb_eq in E as ->. destruct (IH _ H) as [u ->]. by exists u.
Qed.

Lemma startswith_app_l (s t x : string) :
  startswith s t = true -> startswith (s +:+ x) t = true.
Proof.
  intros [u ->]%startswith_split. rewrite app_assoc_str.
  apply startswith_refl_app.
Qed.




(** *** Substrings *)

Lemma contains_of_startswith (p s : string) :
  startswith s p = true -> contains p s = true.
Proof. intros H. destruct s; cbn [contains]; by rewrite H. Qed.

Lemma contains_cons (p : string) (c : ascii) (s : string) :
  contains p s = true -> contains p (String c s) = true.
Proof. intros H. cbn [contains]. rewrite H. apply orb_true_r. Qed.


Lemma contains_app_r (p a b : string) :
  contains p b = true -> contains p (a +:+ b) = true.
Proof.
  intros H. induction a as [|c a IH]; [exact H|].
  rewrite app_cons. by apply contains_cons.
Qed.

Lemma contains_app_l (p a b : string) :
  contains p a = true -> contains p (a +:+ b) = true.
Proof.
  induction a as [|c a IH].
  - destruct p; [|discriminate]. intros _.
    by apply contains_of_startswith; destruct b.
  - cbn [contains]. intros [H|H]%orb_true_iff.
    + apply contains_of_startswith.
      by apply (startswith_app_l (String c a)).
    + rewrite app_cons. apply contains_cons. by apply IH.
Qed.




End StringFacts.

(** ** The cover letter always has a header and a closing *)

Section FormatFacts.
Import PyStr CoverLetterFormat.







End FormatFacts.

(** ** The generator *)

Section GeneratorFacts.
Import PyStr Py CoverLetterFormat CoverLetterGenerator.







(** C2, as stated, fails: with a company brief that is not empty the answer
    of the capability is returned as it is, here a text with neither header
    nor closing. *)
Lemma customize_for_company_returns_raw_answer :
  customize_for_company (always "hello")
    ("Dear team," +:+ nl +:+ "I apply." +:+ nl +:+ "Sincerely, me")
    "Acme builds rockets" []
  = (Ok "hello",
     [CustomizeCoverLetter
        ("Dear team," +:+ nl +:+ "I apply." +:+ nl +:+ "Sincerely, me")
        "Acme builds rockets"])
  /\ header_present "hello" = false
  /\ closing_present "hello" = false
  /\ cover_letter_invariant
       ("Dear team," +:+ nl +:+ "I apply." +:+ nl +:+ "Sincerely, me") = true.
Proof. by vm_compute. Qed.

(** C2, amended.  [customize_for_company] returns the given letter when the
    company brief is empty, and otherwise exactly what the capability
    answers to one request, its text or its failure: the formatter is not
    applied to it. *)
Theorem customize_for_company_result (llm : capability)
    (base_cover_letter company_info : string) (log : list request) :
  customize_for_company llm base_cover_letter company_info log
  = if is_empty company_info then (Ok base_cover_letter, log)
    else (llm log (CustomizeCoverLetter base_cover_letter company_info),
          log ++ [CustomizeCoverLetter base_cover_letter company_info]).
Proof.
  unfold customize_for_company, and_then, invoke, ret.
  destruct (is_empty company_info); [reflexivity|].
  by destruct (llm log _).
Qed.

(** C10.  With an empty company brief [customize_for_company] returns the
    letter it was given and issues no request: the log of requests is
    unchanged, whatever the capability. *)
Theorem customize_for_company_empty_brief (llm : capability)
    (base_cover_letter : string) (log : list request) :
  customize_for_company llm base_cover_letter "" log
  = (Ok base_cover_letter, log).
Proof. reflexivity. Qed.

End GeneratorFacts.

(** ** The résumé parser *)

Section ParserFacts.
Import PyStr Py ResumeParser.

(** *** Extraction *)






(** *** Segmentation *)

Lemma dom_empty_sections : dom empty_sections = section_set.
Proof.
  unfold empty_sections, section_set, section_names.
  rewrite !dom_insert_L, dom_empty_L. set_solver.
Qed.

Lemma find_section_in (ops : str_ops) (kws : list (string * list string))
    (line k : string) :
  find_section ops kws line = Some k -> k ∈ map fst kws.
Proof.
  induction kws as [|[section keywords] kws IH]; simpl; [discriminate|].
  destruct (_ && _).
  - intros [= <-]. left.
  - intros H. right. by apply IH.
Qed.

Lemma find_section_known (ops : str_ops) (line k : string) :
  find_section ops section_keywords line = Some k -> k ∈ section_set.
Proof.
  intros H%find_section_in. unfold section_set, section_names.
  simpl in H. set_solver.
Qed.

Lemma flush_dom (st : seg_state) : seg_inv st -> dom (flush st) = section_set.
Proof.
  intros [Hdom Hcur]. unfold flush.
  destruct (current_section st) as [cur|]; [|exact Hdom].
  destruct (section_content st); [exact Hdom|].
  rewrite dom_insert_L, Hdom. specialize (Hcur cur eq_refl).
  apply subseteq_union_1_L. by apply singleton_subseteq_l.
Qed.

Lemma seg_step_inv (ops : str_ops) (st : seg_state) (line : string) :
  seg_inv st -> seg_inv (seg_step ops st line).
Proof.
  intros Hinv. unfold seg_step.
  destruct (find_section ops section_keywords line) as [k|] eqn:E.
  - split; simpl; [by apply flush_dom|].
    intros k' [= <-]. by apply (find_section_known ops line).
  - destruct (current_section st) eqn:Ec; [|exact Hinv].
    destruct (negb _); [|exact Hinv].
    destruct Hinv as [Hd Hc]. split; simpl; [exact Hd|]. by rewrite Ec in Hc.
Qed.

Lemma fold_seg_step_inv (ops : str_ops) (lines : list string) (st : seg_state) :
  seg_inv st -> seg_inv (fold_left (seg_step ops) lines st).
Proof.
  revert st. induction lines as [|l lines IH]; intros st H; [exact H|].
  simpl. apply IH. by apply seg_step_inv.
Qed.

Lemma fold_seg_step_no_header (ops : str_ops) (lines : list string)
    (m : gmap string string) :
  forallb (fun line => negb (is_header ops line)) lines = true ->
  fold_left (seg_step ops) lines (mkSeg m None []) = mkSeg m None [].
Proof.
  induction lines as [|l lines IH]; [reflexivity|]. simpl.
  intros [Hl H]%andb_true_iff. unfold seg_step at 2. unfold is_header in Hl.
  destruct (find_section ops section_keywords l); [discriminate|]. simpl.
  by apply IH.
Qed.

(** The limit of 50 is on the characters of the line, not on the bytes of
    its encoding: a line of 47 characters and 51 bytes is accepted as the
    header of [experience], and opens that section. *)
Lemma header_limit_counts_characters :
  let line := "• Professional experience & achievements – 2024" in
  len (strip line) = 47
  /\ String.length (strip line) = 51
  /\ find_section model_ops section_keywords line = Some "experience"
  /\ extract_key_sections (line +:+ nl +:+ "Built a thing") !! "experience"
     = Some "Built a thing".
Proof. by vm_compute. Qed.

(** C4.  [extract_key_sections] returns a dictionary whose keys are exactly
    the six section names, for every text; and when no line of the text is
    accepted as a section header, each of the six keys holds the empty
    string.  This holds whatever [lower], [strip] and [len] do to the lines
    of the text ([ops]), hence for those of Python on a text of any script;
    [extract_key_sections] is the case of [model_ops]. *)
Theorem extract_key_sections_six_keys (ops : str_ops) (resume_text : string) :
  dom (extract_key_sections_with ops resume_text) = list_to_set section_names
  /\ (forallb (fun line => negb (is_header ops line))
              (split_char LF resume_text) = true ->
      forall section, section ∈ section_names ->
        extract_key_sections_with ops resume_text !! section = Some "").
Proof.
  split.
  - apply flush_dom, fold_seg_step_inv. split; [apply dom_empty_sections|].
    discriminate.
  - intros H section Hs. unfold extract_key_sections_with.
    rewrite (fold_seg_step_no_header _ _ _ H). unfold flush; simpl.
    unfold section_names in Hs.
    repeat (apply elem_of_cons in Hs as [->|Hs]; [reflexivity|]).
    by apply elem_of_nil in Hs.
Qed.

Lemma extract_key_sections_six_keys_witness :
  let text := "Jane Doe" +:+ nl +:+ "Built a thing" in
  dom (extract_key_sections text) = list_to_set section_names
  /\ forall section, section ∈ section_names ->
       extract_key_sections text !! section = Some "".
Proof.
  intros text.
  destruct (extract_key_sections_six_keys model_ops text) as [H1 H2].
  split; [exact H1|]. apply H2. reflexivity.
Defined.

(** C9.  For the two lines "Experience" and "Built a thing" the experience
    key holds "Built a thing" and the five other keys hold the empty
    string. *)
Theorem extract_key_sections_experience_example :
  let sections := extract_key_sections ("Experience" +:+ nl +:+ "Built a thing") in
  sections !! "experience" = Some "Built a thing"
  /\ sections !! "contact" = Some ""
  /\ sections !! "summary" = Some ""
  /\ sections !! "education" = Some ""
  /\ sections !! "skills" = Some ""
  /\ sections !! "projects" = Some "".
Proof. by vm_compute. Qed.

(** *** Skills *)





End ParserFacts.

(** ** The application tracker *)

Section TrackerFacts.
Import PyStr Py AirtableTracker.

(** The first statement of the [try] block reads [datetime] before the
    function has bound it: nothing is ever handed to [insert]. *)
Lemma record_data_raises (now_1 now_2 : date) (application_data : gmap string string) :
  exists e, record_data now_1 now_2 application_data = Raise e
            /\ exc_cls e = UnboundLocalErrorCls.
Proof. eexists. split; reflexivity. Qed.

Lemma add_job_application_inserts_nothing (t : table) (now_1 now_2 : date)
    (application_data : gmap string string) :
  add_job_application (Some t) now_1 now_2 application_data = (false, Some t).
Proof. reflexivity. Qed.

(** The follow-up date is taken from the clock, not from the application
    date of the record. *)
Lemma add_follow_up_uses_clock (now follow_up : date)
    (application_data record : gmap string string) :
  application_data !! "Follow-up Date" = None ->
  add_days 7 now = Ok follow_up ->
  add_follow_up now application_data record
  = Ok (<["Follow-up Date" := strftime_ymd follow_up]> record).
Proof.
  intros H1 H2. unfold add_follow_up. rewrite H1.
  unfold load_local, mbind, result_bind, Py.bind. by rewrite H2.
Qed.

(** C7.  The code at an application of 1 January 2024 recorded on 1 March
    2024, without follow-up date: no row reaches the table and the call
    answers [False]; and the statements that add the follow-up date, run
    on the record with its defaults, write 8 March 2024, seven days after
    the clock, where seven days after the application date is 8 January
    2024. *)
Theorem add_job_application_follow_up_defect :
  let application_data : gmap string string :=
    <["Application Date" := "2024-01-01"]>
      (<["Position" := "Engineer"]> (<["Company" := "Acme"]> ∅)) in
  let now := mkDate 2024 3 1 in
  let store := mkTable true [] in
  add_job_application (Some store) now now application_data = (false, Some store)
  /\ (exists record,
        add_follow_up now application_data (defaults now application_data)
        = Ok record
        /\ record !! "Application Date" = Some "2024-01-01"
        /\ record !! "Follow-up Date" = Some "2024-03-08")
  /\ (follow_up ← add_days 7 (mkDate 2024 1 1); Ok (strftime_ymd follow_up))
     = Ok "2024-01-08".
Proof.
  intros application_data now store.
  split; [apply add_job_application_inserts_nothing|].
  split; [|by vm_compute].
  exists (<["Follow-up Date" := "2024-03-08"]> (defaults now application_data)).
  split; [|split; by vm_compute].
  by apply (add_follow_up_uses_clock now (mkDate 2024 3 8)); vm_compute.
Qed.

End TrackerFacts.

(** ** The company researcher *)

Section ResearcherFacts.
Import PyStr Py CompanyResearcher.

Lemma contains_refl (p : string) : contains p p = true.
Proof.
  apply contains_of_startswith. rewrite <- (app_empty_r p) at 1.
  apply startswith_refl_app.
Qed.




Lemma research_company_returns_report (w : world) (serpapi_key : option string)
    (company_name : string) :
  exists info, research_company w serpapi_key company_name
               = Ok (_format_company_info company_name info).
Proof. unfold research_company, try_except. by eexists. Qed.







End ResearcherFacts.


(** ** More on the résumé parser *)

Section ParserMore.
Import PyStr Py ResumeParser ParserNotions.

Lemma lower_char_idem (c : ascii) : lower_char (lower_char c) = lower_char c.
Proof. destruct c as [[] [] [] [] [] [] [] []]; reflexivity. Qed.

Lemma lower_idem (s : string) : lower (lower s) = lower s.
Proof.
  induction s as [|c s IH]; [reflexivity|]. simpl.
  by rewrite lower_char_idem, IH.
Qed.

Lemma lower_char_is_dot (c : ascii) :
  Ascii.eqb (lower_char c) DOT = Ascii.eqb c DOT.
Proof. destruct c as [[] [] [] [] [] [] [] []]; reflexivity. Qed.

Lemma split_char_nonempty (sep : ascii) (s : string) :
  exists h t, split_char sep s = h :: t.
Proof.
  induction s as [|c s (h & t & IH)]; simpl; [by eexists _, _|].
  destruct (Ascii.eqb c sep); [by eexists _, _|]. rewrite IH. by eexists _, _.
Qed.

Lemma split_dot_lower (s : string) :
  split_char DOT (lower s) = map lower (split_char DOT s).
Proof.
  induction s as [|c s IH]; [reflexivity|]. simpl.
  rewrite lower_char_is_dot, IH.
  destruct (Ascii.eqb c DOT); [reflexivity|].
  by destruct (split_char_nonempty DOT s) as (h & t & ->).
Qed.

Lemma last_map {A B} (f : A -> B) (l : list A) (d : A) :
  List.last (map f l) (f d) = f (List.last l d).
Proof.
  induction l as [|x l IH]; [reflexivity|].
  destruct l as [|y l]; [reflexivity|]. exact IH.
Qed.

Lemma file_extension_lower (file_name bytes : string) :
  file_extension (mkUpload (lower file_name) bytes)
  = file_extension (mkUpload file_name bytes).
Proof.
  unfold file_extension; simpl. rewrite split_dot_lower.
  change EmptyString with (lower EmptyString) at 1.
  by rewrite last_map, lower_idem.
Qed.

(** X1.  For a file name of ASCII characters, the dispatch of
    [extract_text] does not depend on the case of the name: a file and the
    file of the same bytes with the lower-cased name are treated alike,
    readers and errors included.  (Outside ASCII the lowering of a letter
    can depend on its neighbours, and the property is not claimed.) *)
Theorem extract_text_case_insensitive (lib : readers) (file_name bytes : string) :
  isascii file_name = true ->
  extract_text lib (mkUpload (lower file_name) bytes)
  = extract_text lib (mkUpload file_name bytes).
Proof.
  intros _. unfold extract_text. rewrite file_extension_lower. reflexivity.
Qed.

Lemma extract_text_case_insensitive_witness :
  extract_text text_only (mkUpload "cv.final.txt" "Jane Doe")
  = extract_text text_only (mkUpload "CV.Final.TXT" "Jane Doe").
Proof.
  apply (extract_text_case_insensitive text_only "CV.Final.TXT" "Jane Doe").
  reflexivity.
Defined.

Lemma contains_char_cons (c a : ascii) (s : string) :
  contains (String c "") (String a s)
  = Ascii.eqb c a || contains (String c "") s.
Proof.
  cbn [contains]. f_equal. simpl.
  destruct (Ascii.eqb c a); [by destruct s|reflexivity].
Qed.




(** X3.  For a file with extension txt, [extract_text] returns the text
    the decoder gives, as it is (nothing is trimmed), and a failure of the
    decoder reaches the caller as a plain [Exception] that carries its
    message after "Error extracting text from resume: ". *)
Theorem extract_text_txt (lib : readers) (file : upload) :
  file_extension file = "txt" ->
  extract_text lib file
  = match decode_utf8 lib (content file) with
    | Ok text => Ok text
    | Raise e =>
        Raise (mkExc ExceptionCls
                 ("Error extracting text from resume: " +:+ exc_str e))
    end.
Proof.
  intros H. unfold extract_text, _extract_from_txt. rewrite H. simpl.
  by destruct (decode_utf8 lib (content file)).
Qed.

Lemma extract_text_txt_witness :
  extract_text text_only (mkUpload "cv.TXT" ("  Jane Doe " +:+ nl))
  = Ok ("  Jane Doe " +:+ nl).
Proof.
  rewrite (extract_text_txt text_only (mkUpload "cv.TXT" ("  Jane Doe " +:+ nl)));
    reflexivity.
Defined.

(** *** Documents *)











(** *** Segmentation *)

Lemma split_char_app (sep : ascii) (a b : string) :
  split_char sep (a +:+ String sep b) = split_char sep a ++ split_char sep b.
Proof.
  induction a as [|c a IH].
  - rewrite app_empty_l. simpl. by rewrite Ascii.eqb_refl.
  - rewrite app_cons. simpl. rewrite IH.
    destruct (Ascii.eqb c sep); [reflexivity|].
    by destruct (split_char_nonempty sep a) as (h & t & ->).
Qed.

(** X5.  What precedes the first header is left out: when no line of
    [preamble] is accepted as a header, the sections of the text made of
    [preamble], a line feed and [rest] are the sections of [rest]; this
    holds whatever [lower], [strip] and [len] do to the lines. *)
Theorem extract_key_sections_skips_preamble (ops : str_ops)
    (preamble rest : string) :
  forallb (fun line => negb (is_header ops line)) (split_char LF preamble) = true ->
  extract_key_sections_with ops (preamble +:+ nl +:+ rest)
  = extract_key_sections_with ops rest.
Proof.
  intros H. unfold extract_key_sections_with.
  change (nl +:+ rest) with (String LF rest).
  rewrite (split_char_app LF preamble rest), fold_left_app.
  by rewrite (fold_seg_step_no_header _ _ _ H).
Qed.

Lemma extract_key_sections_skips_preamble_witness :
  extract_key_sections
    (("Jane Doe" +:+ nl +:+ "jane@doe.org") +:+ nl
     +:+ ("Skills" +:+ nl +:+ "Rocq"))
  = extract_key_sections ("Skills" +:+ nl +:+ "Rocq").
Proof.
  apply (extract_key_sections_skips_preamble model_ops
           ("Jane Doe" +:+ nl +:+ "jane@doe.org") ("Skills" +:+ nl +:+ "Rocq")).
  reflexivity.
Defined.

(** The invariant behind the content of the sections. *)
Lemma join_body_lines_ok (ops : str_ops) (lines content : list string) :
  Forall (fun line => body_line ops line = true /\ In line lines) content ->
  content <> [] -> section_value_ok ops lines (join nl content).
Proof. intros H Hne. right. by exists content. Qed.

Lemma flush_values_ok (ops : str_ops) (lines : list string) (st : seg_state) :
  (forall k v, sections st !! k = Some v -> section_value_ok ops lines v) ->
  Forall (fun line => body_line ops line = true /\ In line lines)
         (section_content st) ->
  forall k v, flush st !! k = Some v -> section_value_ok ops lines v.
Proof.
  intros Hs Hc k v. unfold flush.
  destruct (current_section st) as [cur|]; [|apply Hs].
  destruct (section_content st) as [|l ls] eqn:E; [apply Hs|].
  destruct (decide (cur = k)) as [->|Hne].
  - rewrite lookup_insert_eq. intros [= <-].
    apply (join_body_lines_ok ops lines (l :: ls)); [exact Hc|discriminate].
  - rewrite lookup_insert_ne by done. apply Hs.
Qed.

Lemma seg_step_values_ok (ops : str_ops) (lines : list string)
    (st : seg_state) (line : string) :
  In line lines ->
  (forall k v, sections st !! k = Some v -> section_value_ok ops lines v) ->
  Forall (fun line => body_line ops line = true /\ In line lines)
         (section_content st) ->
  (forall k v, sections (seg_step ops st line) !! k = Some v ->
               section_value_ok ops lines v)
  /\ Forall (fun line => body_line ops line = true /\ In line lines)
            (section_content (seg_step ops st line)).
Proof.
  intros Hin Hs Hc. unfold seg_step.
  destruct (find_section ops section_keywords line) as [found|] eqn:E; simpl.
  - split; [by apply flush_values_ok|constructor].
  - destruct (current_section st); [|by split].
    destruct (negb (is_empty (ops_strip ops line))) eqn:Eb; simpl; [|by split].
    split; [exact Hs|]. apply Forall_app; split; [exact Hc|].
    constructor; [|constructor]. split; [|exact Hin].
    unfold body_line, is_header. by rewrite E, Eb.
Qed.

Lemma fold_seg_step_values_ok (ops : str_ops) (lines rest : list string)
    (st : seg_state) :
  (forall line, In line rest -> In line lines) ->
  (forall k v, sections st !! k = Some v -> section_value_ok ops lines v) ->
  Forall (fun line => body_line ops line = true /\ In line lines)
         (section_content st) ->
  forall k v, flush (fold_left (seg_step ops) rest st) !! k = Some v ->
              section_value_ok ops lines v.
Proof.
  revert st. induction rest as [|l rest IH]; intros st Hin Hs Hc.
  - by apply flush_values_ok.
  - simpl. destruct (seg_step_values_ok ops lines st l) as [Hs' Hc']; auto.
    { apply Hin. by left. }
    apply IH; auto. intros line H. apply Hin. by right.
Qed.

(** X7.  Whatever the text, a section holds either nothing or lines of the
    text joined by line feeds, none of which is blank or a header; this
    holds whatever [lower], [strip] and [len] do to the lines. *)
Theorem extract_key_sections_values (ops : str_ops)
    (resume_text section value : string) :
  extract_key_sections_with ops resume_text !! section = Some value ->
  section_value_ok ops (split_char LF resume_text) value.
Proof.
  unfold extract_key_sections_with. apply fold_seg_step_values_ok; simpl.
  - auto.
  - intros k v Hk. left. unfold empty_sections in Hk.
    repeat (rewrite lookup_insert in Hk; case_decide; [by inversion Hk|]).
    by rewrite lookup_empty in Hk.
  - constructor.
Qed.

Lemma extract_key_sections_values_witness :
  section_value_ok model_ops
    (split_char LF ("Skills" +:+ nl +:+ "Rocq" +:+ nl +:+ "" +:+ nl +:+ "OCaml"))
    ("Rocq" +:+ nl +:+ "OCaml").
Proof.
  apply (extract_key_sections_values model_ops
           ("Skills" +:+ nl +:+ "Rocq" +:+ nl +:+ "" +:+ nl +:+ "OCaml") "skills").
  by vm_compute.
Defined.

End ParserMore.

(** ** More on the skill keywords *)

Section SkillsMore.
Import PyStr Py ResumeParser.


Lemma contains_inside (p u v : string) : contains p (u +:+ p +:+ v) = true.
Proof. apply contains_app_r, contains_app_l, contains_refl. Qed.









End SkillsMore.

(** ** More on the cover-letter generator *)

Section GeneratorMore.
Import PyStr Py CoverLetterFormat CoverLetterGenerator.





(** *** The answer is kept *)









(** *** Bullets *)





End GeneratorMore.

(** ** More on the tracker *)

Section TrackerMore.
Import PyStr Py AirtableTracker AirtableReports.

(** X16.  [add_job_application] never adds a row and always answers
    [False], with or without a table and whatever the application: the
    read of [datetime] in the dictionary of defaults raises before
    [insert] is reached, and the handler turns the exception into
    [False]. *)
Theorem add_job_application_always_fails (airtable : option table)
    (now_1 now_2 : date) (application_data : gmap string string) :
  add_job_application airtable now_1 now_2 application_data = (false, airtable).
Proof. destruct airtable; reflexivity. Qed.

(** *** The summary *)

Lemma summary_step_total (is_recent : string -> bool)
    (apps : list (gmap string string)) (acc : application_summary) :
  total_applications (fold_left (summary_step is_recent) apps acc)
  = total_applications acc.
Proof.
  revert acc. induction apps as [|app apps IH]; intros acc; [reflexivity|].
  simpl. by rewrite IH.
Qed.

Lemma summary_step_breakdown (is_recent : string -> bool)
    (apps : list (gmap string string)) (acc : application_summary)
    (status : string) :
  default 0 (status_breakdown (fold_left (summary_step is_recent) apps acc) !! status)
  = default 0 (status_breakdown acc !! status) + count_status status apps.
Proof.
  revert acc. induction apps as [|app apps IH]; intros acc.
  - unfold count_status. simpl. lia.
  - simpl. rewrite IH. unfold count_status. simpl. fold (status_of app).
    destruct (String.eqb_spec (status_of app) status) as [->|Hne]; simpl.
    + rewrite lookup_insert_eq. simpl. lia.
    + by rewrite lookup_insert_ne.
Qed.

(** A summary is the result of the loop over the rows. *)
Lemma summary_is_fold (is_recent : string -> bool) (airtable : option table)
    (summary : application_summary) :
  generate_application_summary is_recent airtable = Some summary ->
  summary
  = fold_left (summary_step is_recent) (get_all_applications airtable)
      (mkSummary (length (get_all_applications airtable)) ∅ ∅ []).
Proof.
  unfold generate_application_summary.
  destruct airtable as [t|]; [|discriminate].
  destruct (get_all_applications (Some t)) as [|app apps]; [discriminate|].
  by intros [= <-].
Qed.

(** The counts of a summary. *)
Lemma summary_counts_of_rows (is_recent : string -> bool) (airtable : option table)
    (summary : application_summary) :
  generate_application_summary is_recent airtable = Some summary ->
  total_applications summary = length (get_all_applications airtable)
  /\ forall status,
       default 0 (status_breakdown summary !! status)
       = count_status status (get_all_applications airtable).
Proof.
  intros ->%summary_is_fold. split.
  - by rewrite summary_step_total.
  - intros status. rewrite summary_step_breakdown. simpl.
    by rewrite lookup_empty.
Qed.

Lemma histogram_total_bump (h : gmap string nat) (k : string) :
  histogram_total (<[k := (default 0 (h !! k) + 1)%nat]> h)
  = S (histogram_total h).
Proof.
  unfold histogram_total.
  assert (forall (m : gmap string nat) (x : nat),
            m !! k = None ->
            map_fold (fun _ n acc => (n + acc)%nat) 0%nat (<[k := x]> m)
            = (x + map_fold (fun _ n acc => (n + acc)%nat) 0%nat m)%nat) as Hins.
  { intros m x Hm. rewrite map_fold_insert_L; [reflexivity| |exact Hm].
    intros. lia. }
  destruct (h !! k) as [v|] eqn:E; simpl.
  - rewrite <- insert_delete_eq, Hins by apply lookup_delete_eq.
    rewrite <- (insert_delete_id h k v E) at 2.
    rewrite Hins by apply lookup_delete_eq. lia.
  - rewrite Hins by exact E. lia.
Qed.

Lemma summary_step_histogram_total (is_recent : string -> bool)
    (apps : list (gmap string string)) (acc : application_summary) :
  histogram_total (status_breakdown (fold_left (summary_step is_recent) apps acc))
  = histogram_total (status_breakdown acc) + length apps.
Proof.
  revert acc. induction apps as [|app apps IH]; intros acc; simpl; [lia|].
  rewrite IH. simpl. rewrite histogram_total_bump. lia.
Qed.

(** The counts of the histogram add up. *)
Lemma summary_histogram_sum (is_recent : string -> bool)
    (airtable : option table) (summary : application_summary) :
  generate_application_summary is_recent airtable = Some summary ->
  histogram_total (status_breakdown summary) = total_applications summary.
Proof.
  intros ->%summary_is_fold.
  rewrite summary_step_total, summary_step_histogram_total. simpl.
  unfold histogram_total. by rewrite map_fold_empty.
Qed.

(** X17.  In a summary, the number of applications is the number of rows
    of the table; the histogram gives for each status the number of rows
    with that status, a row without status counting as "Unknown"; and the
    counts of the histogram add up to the number of applications. *)
Theorem summary_histogram (is_recent : string -> bool) (airtable : option table)
    (summary : application_summary) :
  generate_application_summary is_recent airtable = Some summary ->
  total_applications summary = length (get_all_applications airtable)
  /\ (forall status,
        default 0 (status_breakdown summary !! status)
        = count_status status (get_all_applications airtable))
  /\ histogram_total (status_breakdown summary) = total_applications summary.
Proof.
  intros H. destruct (summary_counts_of_rows _ _ _ H) as [H1 H2].
  split; [exact H1|]. split; [exact H2|].
  by apply (summary_histogram_sum is_recent airtable).
Qed.

Lemma summary_histogram_witness :
  let rows : list (gmap string string) :=
    [ <["Status" := "Applied"]> (<["Company" := "Acme"]> ∅);
      <["Company" := "Initech"]> ∅;
      <["Status" := "Applied"]> (<["Company" := "Acme"]> ∅) ] in
  let summary :=
    fold_left (summary_step (fun _ => true)) rows (mkSummary 3 ∅ ∅ []) in
  generate_application_summary (fun _ => true) (Some (mkTable true rows))
  = Some summary
  /\ total_applications summary = 3
  /\ histogram_total (status_breakdown summary) = total_applications summary.
Proof.
  intros rows summary.
  assert (generate_application_summary (fun _ => true) (Some (mkTable true rows))
          = Some summary) as H by reflexivity.
  destruct (summary_histogram (fun _ => true) (Some (mkTable true rows)) summary H)
    as (H1 & _ & H3).
  split; [exact H|]. split; [exact H1|exact H3].
Defined.

End TrackerMore.

(** ** More on the summary of the tracker *)

Section SummaryMore.
Import PyStr Py AirtableTracker AirtableReports ReportNotions.

Lemma summary_step_companies (is_recent : string -> bool)
    (apps : list (gmap string string)) (acc : application_summary)
    (company : string) :
  company ∈ companies_applied_to (fold_left (summary_step is_recent) apps acc)
  <-> company ∈ companies_applied_to acc
      \/ (company <> ""
          /\ exists app, In app apps /\ get app "Company" "" = company).
Proof.
  revert acc. induction apps as [|app apps IH]; intros acc; simpl.
  - split; [by left|]. intros [H|(_ & app & [] & _)]. exact H.
  - rewrite IH. simpl. split.
    + intros [H|(Hne & app' & Hin & E)].
      * destruct (is_empty (get app "Company" "")) eqn:Ee; simpl in H; [by left|].
        apply elem_of_union in H as [H|H]; [|by left].
        apply elem_of_singleton in H as ->. right. split.
        { intros E. by rewrite E in Ee. }
        exists app. by split; [left|].
      * right. split; [exact Hne|]. exists app'. by split; [right|].
    + intros [H|(Hne & app' & [<-|Hin] & E)].
      * left. destruct (is_empty _); simpl; [exact H|].
        apply elem_of_union. by right.
      * left. rewrite E. destruct company; [done|]. simpl.
        apply elem_of_union. left. by apply elem_of_singleton.
      * right. split; [exact Hne|]. by exists app'.
Qed.

Lemma summary_step_recent (is_recent : string -> bool)
    (apps : list (gmap string string)) (acc : application_summary) :
  recent_applications (fold_left (summary_step is_recent) apps acc)
  = recent_applications acc ++ List.filter (dated_recently is_recent) apps.
Proof.
  revert acc. induction apps as [|app apps IH]; intros acc; simpl.
  - by rewrite app_nil_r.
  - rewrite IH. simpl. unfold dated_recently at 2.
    destruct (negb _ && is_recent _); [|reflexivity].
    by rewrite <- app_assoc.
Qed.

(** X18.  In a summary, the companies applied to are exactly the company
    names of the rows that are not empty, each once, and the recent
    applications are the rows with a dated, recent application, in the
    order of the table. *)
Theorem summary_companies_and_recent (is_recent : string -> bool)
    (airtable : option table) (summary : application_summary) :
  generate_application_summary is_recent airtable = Some summary ->
  (forall company,
      company ∈ companies_applied_to summary
      <-> company <> ""
          /\ exists app, In app (get_all_applications airtable)
                         /\ get app "Company" "" = company)
  /\ recent_applications summary
     = List.filter (dated_recently is_recent) (get_all_applications airtable).
Proof.
  intros ->%summary_is_fold. split.
  - intros company. rewrite summary_step_companies. simpl.
    split; [intros [H|H]; [by apply not_elem_of_empty in H|exact H]|by right].
  - by rewrite summary_step_recent.
Qed.

Lemma summary_companies_and_recent_witness :
  let rows : list (gmap string string) :=
    [ <["Application Date" := "2024-03-01"]> (<["Company" := "Acme"]> ∅);
      <["Company" := ""]> ∅ ] in
  let summary :=
    fold_left (summary_step (fun _ => true)) rows (mkSummary 2 ∅ ∅ []) in
  generate_application_summary (fun _ => true) (Some (mkTable true rows))
  = Some summary
  /\ recent_applications summary
     = List.filter (dated_recently (fun _ => true)) rows.
Proof.
  intros rows summary.
  assert (generate_application_summary (fun _ => true) (Some (mkTable true rows))
          = Some summary) as H by reflexivity.
  destruct (summary_companies_and_recent (fun _ => true)
              (Some (mkTable true rows)) summary H) as [_ H2].
  split; [exact H|exact H2].
Defined.

End SummaryMore.

(** ** More on the company researcher *)

Section ResearcherMore.
Import PyStr Py CompanyResearcher CompanyQueries.

(** X19.  With a search credential the researcher never scrapes, and
    without one it never searches: the answer of [research_company]
    depends, in the first case, on the search client only and, in the
    second, on the pages only.  In particular a failed search is not made
    up for by scraping. *)
Theorem research_company_one_source (w1 w2 : world)
    (serpapi_key : option string) (company_name : string) :
  (if truthy serpapi_key
   then GoogleSearch w1 = GoogleSearch w2
   else requests_get w1 = requests_get w2
        /\ BeautifulSoup w1 = BeautifulSoup w2) ->
  research_company w1 serpapi_key company_name
  = research_company w2 serpapi_key company_name.
Proof.
  unfold research_company. destruct (truthy serpapi_key).
  - intros H. unfold _research_with_serpapi, search. by rewrite H.
  - intros [H1 H2].
    unfold _research_with_scraping, _scrape_company_website.
    by rewrite H1, H2.
Qed.

Lemma research_company_one_source_witness :
  research_company offline (Some "key") "Acme"
  = research_company (mkWorld None (fun _ => Ok (mkResponse 200 "<html>"))
                        (fun _ => Ok []))
      (Some "key") "Acme".
Proof.
  apply (research_company_one_source offline
           (mkWorld None (fun _ => Ok (mkResponse 200 "<html>")) (fun _ => Ok []))
           (Some "key") "Acme").
  reflexivity.
Defined.

(** X20.  The three searches of [_research_with_serpapi] share one
    handler: the overview is that of the first search whatever happens
    later, the headlines need the first two searches to succeed, and the
    culture text needs all three. *)
Theorem serpapi_facets (w : world) (serpapi_key company_name : string) :
  let about :=
    search w (mkParams (company_name +:+ " company about") serpapi_key None 5) in
  let news :=
    search w (mkParams (company_name +:+ " news 2024") serpapi_key (Some "nws") 3) in
  let culture :=
    search w (mkParams (company_name +:+ " company culture careers values")
                       serpapi_key None 3) in
  let found := _research_with_serpapi w serpapi_key company_name in
  info_basic_info found
  = match about with
    | Ok r => (fun rs => join " " (snippets (firstn 3 rs))) <$> organic_results r
    | Raise _ => None
    end
  /\ info_recent_news found
     = match about, news with
       | Ok _, Ok n => (fun ns => titles (firstn 3 ns)) <$> news_results n
       | _, _ => None
       end
  /\ info_company_culture found
     = match about, news, culture with
       | Ok _, Ok _, Ok c =>
           (fun rs => join " " (culture_snippets (firstn 2 rs)))
             <$> organic_results c
       | _, _, _ => None
       end.
Proof.
  intros about news culture found. subst found.
  unfold _research_with_serpapi. fold about news culture.
  destruct about as [r|]; [|done].
  destruct (organic_results r); destruct news as [n|]; try done;
    destruct (news_results n); destruct culture as [c|]; try done;
    by destruct (organic_results c).
Qed.

(** *** Scraping *)

Lemma len_take (n : nat) (s : string) :
  len (take n s) = Nat.min n (len s).
Proof.
  revert n. induction s as [|c s IH]; intros n; cbn [take len].
  - by rewrite Nat.min_0_r.
  - destruct (continues_char c) eqn:E.
    + cbn [len]. rewrite E. apply IH.
    + destruct n as [|n]; [reflexivity|].
      cbn [len]. by rewrite E, IH.
Qed.

(** Lengths and slices are in characters: of a text of two hundred
    two-byte letters, [take 300] keeps all, and [len] counts 200. *)
Lemma take_counts_characters :
  let text := fold_right String.append "" (repeat "é" 200) in
  String.length text = 400 /\ len text = 200 /\ take 300 text = text
  /\ len (take 150 text) = 150.
Proof. by vm_compute. Qed.

Lemma first_long_parent_text_bounds (sections : list element) (text : string) :
  first_long_parent_text sections = Some text ->
  50 < len text <= 500.
Proof.
  induction sections as [|e sections IH]; cbn [first_long_parent_text];
    [discriminate|].
  destruct (parent_text e) as [t|]; [|exact IH].
  destruct (50 <? len t)%nat eqn:E; [|exact IH].
  intros H. assert (text = take 500 t) as -> by congruence.
  rewrite len_take. apply Nat.ltb_lt in E. lia.
Qed.

(** A text of 30 characters is too short for an overview, whatever the
    bytes of its encoding (90 here); one of 51 characters is kept. *)
Lemma overview_limit_counts_characters :
  let euros n := fold_right String.append "" (repeat "€" n) in
  let about text := mkElement "p" None (Some "About us") "About us" (Some text) in
  String.length (euros 30) = 90
  /\ first_long_parent_text [about (euros 30)] = None
  /\ first_long_parent_text [about (euros 30); about (euros 51)]
     = Some (euros 51).
Proof. by vm_compute. Qed.

Lemma scrape_website_shape (w : world) (website_url : string) :
  let found := _scrape_company_website w website_url in
  info_company_culture found = None
  /\ (forall text, info_basic_info found = Some text ->
                   50 < len text <= 500)
  /\ (forall news, info_recent_news found = Some news ->
                   1 <= length news <= 3).
Proof.
  unfold _scrape_company_website.
  destruct (requests_get w website_url) as [response|]; [|by repeat split].
  destruct (status_code response =? 200)%Z; [|by repeat split].
  destruct (BeautifulSoup w (body response)) as [soup|]; [|by repeat split].
  simpl. split; [reflexivity|]. split.
  - apply first_long_parent_text_bounds.
  - intros news. destruct (List.filter _ soup) as [|x l]; [discriminate|].
    intros H. assert (news = map el_text (firstn 3 (x :: l))) as -> by congruence.
    rewrite length_map, length_take. cbn [length]. lia.
Qed.

Lemma info_update_no_info (found : info) : info_update no_info found = found.
Proof. by destruct found as [[b|] [n|] [c|]]. Qed.

(** X21.  What scraping can find is bounded: it never gives a culture
    text; an overview it gives has more than 50 and at most 500
    characters (code points, as [len] counts them); headlines it gives are
    between one and three. *)
Theorem scraping_bounds (w : world) (company_name : string) :
  let found := _research_with_scraping w company_name in
  info_company_culture found = None
  /\ (forall text, info_basic_info found = Some text ->
                   50 < len text <= 500)
  /\ (forall news, info_recent_news found = Some news ->
                   1 <= length news <= 3).
Proof.
  unfold _research_with_scraping.
  destruct (requests_get w _) as [response|]; [|by repeat split].
  destruct (status_code response =? 200)%Z; [|by repeat split].
  destruct (BeautifulSoup w (body response)) as [soup|]; [|by repeat split].
  destruct (truthy _); [|by repeat split].
  rewrite info_update_no_info. apply scrape_website_shape.
Qed.




(** *** The other queries *)

(** X23.  [research_industry_trends] always answers a text that is not
    empty and mentions the industry, whatever the search does; without a
    credential the answer is the advice to research by hand. *)
Theorem research_industry_trends_total (w : world) (serpapi_key : option string)
    (industry : string) :
  contains industry (research_industry_trends w serpapi_key industry) = true
  /\ is_empty (research_industry_trends w serpapi_key industry) = false
  /\ (truthy serpapi_key = false ->
      research_industry_trends w serpapi_key industry
      = "Manual research recommended for " +:+ industry +:+ " industry trends.").
Proof.
  assert (contains industry (manual_research industry) = true) as Hm
    by apply contains_inside.
  unfold research_industry_trends.
  destruct (truthy serpapi_key); simpl; [|by repeat split].
  destruct (search w _) as [results|]; [|by repeat split].
  destruct (organic_results results); [|by repeat split].
  split; [apply contains_inside|]. by split.
Qed.

Lemma research_industry_trends_total_witness :
  research_industry_trends offline None "robotics"
  = "Manual research recommended for robotics industry trends.".
Proof.
  destruct (research_industry_trends_total offline None "robotics")
    as (_ & _ & H).
  apply H. reflexivity.
Defined.

(** X24.  [get_company_linkedin_info] gives a text exactly when there is a
    credential, the search succeeds and its first result has a snippet,
    and the text is that snippet; later results are not looked at and no
    failure leaves the function. *)
Theorem get_company_linkedin_info_spec (w : world) (serpapi_key : option string)
    (company_name text : string) :
  get_company_linkedin_info w serpapi_key company_name = Some text
  <-> truthy serpapi_key = true
      /\ exists results first others,
           search w (mkParams (company_name +:+ " site:linkedin.com/company")
                              (default "" serpapi_key) None 1) = Ok results
           /\ organic_results results = Some (first :: others)
           /\ snippet first = Some text.
Proof.
  unfold get_company_linkedin_info. split.
  - destruct (truthy serpapi_key); simpl; [|discriminate].
    destruct (search w _) as [results|]; [|discriminate].
    destruct (organic_results results) as [[|first others]|] eqn:E;
      try discriminate.
    intros H. split; [reflexivity|]. by exists results, first, others.
  - intros (-> & results & first & others & -> & -> & H). exact H.
Qed.

(** *** The report *)

Lemma take_take (n : nat) (s : string) : take n (take n s) = take n s.
Proof.
  revert n. induction s as [|c s IH]; intros n; [reflexivity|].
  cbn [take]. destruct (continues_char c) eqn:E.
  - cbn [take]. by rewrite E, IH.
  - destruct n as [|n]; [reflexivity|]. cbn [take]. by rewrite E, IH.
Qed.

Lemma is_empty_take (n : nat) (s : string) :
  is_empty (take (S n) s) = is_empty s.
Proof.
  destruct s as [|c s]; [reflexivity|]. cbn [take].
  by destruct (continues_char c).
Qed.

(** X25.  The report only uses the beginning of what was found: the first
    300 characters of the overview, the first three headlines, the first
    200 characters of the culture text and the first two achievements. *)
Theorem report_uses_beginnings (company_name : string) (info : company_info) :
  _format_company_info company_name
    (mkCompanyInfo (take 300 (basic_info info))
                   (firstn 3 (recent_news info))
                   (take 200 (company_culture info))
                   (size_and_industry info)
                   (firstn 2 (recent_achievements info)))
  = _format_company_info company_name info.
Proof.
  destruct info as [b n c z a]. unfold _format_company_info.
  cbn [basic_info recent_news company_culture size_and_industry
       recent_achievements].
  rewrite !is_empty_take, !take_take.
  assert (forall k (l : list string), firstn k (firstn k l) = firstn k l) as Hf.
  { intros k l. rewrite firstn_firstn. by rewrite Nat.min_id. }
  rewrite (Hf 3), (Hf 2).
  destruct n as [|n1 n]; destruct a as [|a1 a]; reflexivity.
Qed.

End ResearcherMore.

(** ** The mail sender *)

Section MailFacts.
Import PyStr Py EmailSender ReportNotions.

(** A reply to [QUIT] other than 221 turns the outcome into [False] after
    the mail has been delivered. *)
Lemma quit_failure_after_delivery :
  let self := mkSender "me@example.org" "secret" "smtp.example.org" 587 in
  let mail := mkMessage "me@example.org" "hr@acme.example" "Hello"
                [mkPart "text/plain" None "Good morning"] in
  send_simple_email rude_service self "hr@acme.example" "Hello" "Good morning" []
  = (false, [("me@example.org", "hr@acme.example", mail)])
  /\ send_simple_email strict_service self "hr@acme.example" "Hello"
       "Good morning" []
     = (true, [("me@example.org", "hr@acme.example", mail)])
  /\ test_connection rude_service self = false
  /\ test_connection strict_service self = true.
Proof. by vm_compute. Qed.

(** X26.  A mail is delivered exactly when the connection, [starttls],
    [login] and the delivery all succeed; sending then returns [True] when
    the [QUIT] on leaving the block is answered as expected, and [False]
    when it is not, although the mail has been delivered.  When an earlier
    step fails, [False] is returned and nothing is delivered.  The same
    holds of [send_simple_email]; and [test_connection] returns [True]
    exactly when the connection, [starttls], [login] and the [QUIT]
    succeed. *)
Theorem send_outcome (svc : smtp_service) (fs : filesystem) (self : sender)
    (recipient_email subject cover_letter applicant_name position company_name
     body : string)
    (attachments : option (list string)) (sent : outbox) :
  let msg := application_message fs self recipient_email subject cover_letter
               applicant_name position company_name attachments in
  let simple := mkMessage (email_address self) recipient_email subject
                  [mkPart "text/plain" None body] in
  let ready := is_ok (connect svc (smtp_server self) (smtp_port self))
               && is_ok (starttls svc)
               && is_ok (login svc (email_address self) (password self)) in
  let delivered m :=
    ready && is_ok (deliver svc (email_address self) recipient_email m) in
  send_application_email svc fs self recipient_email subject cover_letter
    applicant_name position company_name attachments sent
  = (delivered msg && is_ok (quit svc),
     if delivered msg
     then sent ++ [(email_address self, recipient_email, msg)] else sent)
  /\ send_simple_email svc self recipient_email subject body sent
     = (delivered simple && is_ok (quit svc),
        if delivered simple
        then sent ++ [(email_address self, recipient_email, simple)] else sent)
  /\ test_connection svc self = ready && is_ok (quit svc).
Proof.
  intros msg simple ready delivered. subst ready delivered.
  unfold send_application_email, send_simple_email, test_connection, leave,
    authenticate.
  fold msg simple.
  destruct (connect svc (smtp_server self) (smtp_port self)) as [[]|];
    [|by repeat split].
  destruct (starttls svc) as [[]|]; cbn [mbind result_bind is_ok andb].
  - destruct (login svc (email_address self) (password self)) as [[]|];
      cbn [is_ok andb].
    + repeat split.
      * destruct (deliver svc (email_address self) recipient_email msg);
          by destruct (quit svc).
      * destruct (deliver svc (email_address self) recipient_email simple);
          by destruct (quit svc).
      * by destruct (quit svc).
    + repeat split; by destruct (quit svc).
  - repeat split; by destruct (quit svc).
Qed.

Lemma attach_files_from (fs : filesystem) (files : list string)
    (msg : email_message) :
  fold_left
    (fun msg file_path =>
       if path_exists fs file_path then _attach_file fs msg file_path else msg)
    files msg
  = mkMessage (msg_from msg) (msg_to msg) (msg_subject msg)
              (parts msg ++ omap (readable_attachment fs) files).
Proof.
  revert msg. induction files as [|path files IH]; intros msg; simpl.
  - rewrite app_nil_r. by destruct msg.
  - rewrite IH. unfold readable_attachment at 2, _attach_file.
    destruct (path_exists fs path); [|reflexivity].
    destruct (read_bytes fs path); simpl; [|reflexivity].
    by rewrite <- app_assoc.
Qed.

(** X27.  The mail of an application carries the sender, the recipient
    and the subject given, the body as its first part and, after it, one
    part for each attachment that exists and can be read, in the order
    given; a file that is missing or cannot be read is left out and does
    not stop the mail. *)
Theorem application_message_parts (fs : filesystem) (self : sender)
    (recipient_email subject cover_letter applicant_name position company_name : string)
    (attachments : option (list string)) :
  application_message fs self recipient_email subject cover_letter
    applicant_name position company_name attachments
  = mkMessage (email_address self) recipient_email subject
      (mkPart "text/plain" None
         (_create_email_body cover_letter applicant_name position company_name)
       :: omap (readable_attachment fs) (default [] attachments)).
Proof.
  unfold application_message.
  destruct attachments as [[|path files]|]; try reflexivity.
  by rewrite attach_files_from.
Qed.

Lemma replace_absent (c : ascii) (old new s : string) :
  contains (String c "") s = false ->
  replace (String c old) new s = s.
Proof.
  unfold replace. induction s as [|a s IH]; [reflexivity|].
  rewrite contains_char_cons. intros [H1 H2]%orb_false_iff.
  cbn [replace_from]. simpl startswith. rewrite H1. by rewrite (IH H2).
Qed.

(** X28.  A cover letter without an opening bracket has no placeholder to
    fill: it stands in the body of the mail as it is, between the opening
    and the ending of the body. *)
Theorem email_body_without_placeholders
    (cover_letter applicant_name position company_name : string) :
  contains "[" cover_letter = false ->
  _create_email_body cover_letter applicant_name position company_name
  = body_opening position company_name +:+ cover_letter
      +:+ body_ending applicant_name.
Proof.
  intros H. unfold _create_email_body, body_opening, body_ending.
  rewrite !(replace_absent _ _ _ _ H). by rewrite !app_assoc_str.
Qed.

Lemma email_body_without_placeholders_witness :
  _create_email_body "I apply." "Ann" "Engineer" "Acme"
  = body_opening "Engineer" "Acme" +:+ "I apply." +:+ body_ending "Ann".
Proof.
  apply (email_body_without_placeholders "I apply." "Ann" "Engineer" "Acme").
  reflexivity.
Defined.

End MailFacts.

(** ** The application *)

Section AppFacts.
Import PyStr Py CoverLetterFormat CoverLetterGenerator EmailSender App.








End AppFacts.
